(** * BlogWithUsers: the Flask blog of [main.py]

    A shallow embedding of the route handlers of [main.py] over an explicit
    model of the relational store they talk to.  Each handler is a function
    from the world (database, session cookie of the requesting browser,
    flashed messages) to a response and a new world.  Tables are lists of
    rows in insertion order; an unhandled exception of a handler is the
    response [InternalServerError] with the database left as it was before
    the request (nothing was committed). *)

From Stdlib Require Import ZArith List String Ascii Bool Lia.
From Stdlib Require Import Permutation Sorted DecimalString.
Import ListNotations.

Local Open Scope string_scope.
Local Open Scope list_scope.
Local Open Scope Z_scope.

(** ** Timestamps

    [datetime.now()] and [date.today()] read the clock; the clock value is
    an input of the handlers that use it. *)

Record datetime : Type := mk_datetime
  { year : Z; month : Z; day : Z;
    hour : Z; minute : Z; second : Z; microsecond : Z }.

Definition lex (c1 c2 : comparison) : comparison :=
  match c1 with Eq => c2 | _ => c1 end.

(** Chronological comparison, field by field. *)
Definition datetime_compare (a b : datetime) : comparison :=
  lex (year a ?= year b)
 (lex (month a ?= month b)
 (lex (day a ?= day b)
 (lex (hour a ?= hour b)
 (lex (minute a ?= minute b)
 (lex (second a ?= second b)
      (microsecond a ?= microsecond b)))))).

(** [datetime_geb a b]: [a] is not older than [b]. *)
Definition datetime_geb (a b : datetime) : bool :=
  match datetime_compare a b with Lt => false | _ => true end.

Definition month_name (m : Z) : string :=
  match m with
  | 1 => "January" | 2 => "February" | 3 => "March" | 4 => "April"
  | 5 => "May" | 6 => "June" | 7 => "July" | 8 => "August"
  | 9 => "September" | 10 => "October" | 11 => "November" | _ => "December"
  end.

Definition decimal (n : Z) : string :=
  NilZero.string_of_uint (N.to_uint (Z.to_N n)).

Definition two_digits (n : Z) : string :=
  if n <? 10 then "0" ++ decimal n else decimal n.

(** [date.today().strftime("%B %d, %Y")] *)
Definition strftime_B_d_Y (today : datetime) : string :=
  (month_name (month today) ++ " " ++ two_digits (day today) ++ ", "
   ++ decimal (year today))%string.

(** ** DATABASE TABLES *)

Module BlogPost.
Record t : Type := mk
  { id : Z;
    author_id : Z;
    title : string;
    subtitle : string;
    date : string;
    body : string;
    img_url : string;
    project_url : option string }.
End BlogPost.

Module User.
Record t : Type := mk
  { id : Z;
    email : string;
    password : string;
    name : string }.
End User.

Module Comment.
(** [post_id] is [None] for SQL NULL, which the ORM writes when the parent
    post of a comment goes away. *)
Record t : Type := mk
  { id : Z;
    text : string;
    author_id : Z;
    post_id : option Z }.
End Comment.

Module Message.
Record t : Type := mk
  { id : Z;
    name : string;
    email : string;
    phone : option string;
    message : string;
    date : datetime }.
End Message.

Record Store : Type := mk_store
  { blog_posts : list BlogPost.t;
    users : list User.t;
    comments : list Comment.t;
    messages : list Message.t }.

(** [db.create_all()] on a fresh database file. *)
Definition create_all : Store :=
  {| blog_posts := []; users := []; comments := []; messages := [] |}.

(** An integer primary key of a new row: one more than the largest in the
    table, 1 in an empty table. *)
Definition next_id (ids : list Z) : Z := 1 + fold_right Z.max 0 ids.

(** ** Queries *)

(** [db.get_or_404(BlogPost, post_id)]; [None] is the 404. *)
Definition get_post (s : Store) (post_id : Z) : option BlogPost.t :=
  find (fun p => BlogPost.id p =? post_id) (blog_posts s).

(** [db.get_or_404(User, user_id)]; [None] is the 404. *)
Definition get_user (s : Store) (user_id : Z) : option User.t :=
  find (fun u => User.id u =? user_id) (users s).

(** [db.session.execute(db.select(User).where(User.email == email)).scalar()] *)
Definition select_user_by_email (s : Store) (email : string) : option User.t :=
  find (fun u => String.eqb (User.email u) email) (users s).

(** [post.comments]: the rows of [comments] whose [post_id] is the post. *)
Definition references (post_id : Z) (c : Comment.t) : bool :=
  match Comment.post_id c with
  | Some p => p =? post_id
  | None => false
  end.

Definition post_comments (s : Store) (post_id : Z) : list Comment.t :=
  filter (references post_id) (comments s).

(** [ORDER BY messages.date DESC]: insertion into a list that is already
    newest first, in front of the first row that is not newer. *)
Fixpoint insert_desc (m : Message.t) (l : list Message.t) : list Message.t :=
  match l with
  | [] => [m]
  | x :: l' =>
      if datetime_geb (Message.date m) (Message.date x)
      then m :: x :: l'
      else x :: insert_desc m l'
  end.

Definition order_by_date_desc (l : list Message.t) : list Message.t :=
  fold_right insert_desc [] l.

(** ** Requests, forms and responses *)

Inductive Method : Type := GET | POST.

Record Request (F : Type) : Type := mk_request
  { method : Method; form : F }.
Arguments mk_request {F} _ _.
Arguments method {F} _.
Arguments form {F} _.

(** The form classes come from [forms.py], which is not among the sources.
    Their fields are the ones [main.py] reads; their validators are
    parameters of the handlers below. *)

Module RegisterForm.
Record t : Type := mk { email : string; password : string; name : string }.
End RegisterForm.

Module LoginForm.
Record t : Type := mk { email : string; password : string }.
End LoginForm.

Module CommentForm.
Record t : Type := mk { comment_text : string }.
End CommentForm.

Module CreatePostForm.
Record t : Type := mk
  { title : string;
    subtitle : string;
    img_url : string;
    body : string;
    project_url : option string }.
End CreatePostForm.

(** [request.form.get(...)] of the contact page: a missing field is [None]. *)
Module ContactForm.
Record t : Type := mk
  { name : option string;
    email : option string;
    phone : option string;
    message : option string }.
End ContactForm.

(** [form.validate_on_submit()]: the request is a POST and the form's
    validators accept it. *)
Definition validate_on_submit {F : Type} (validate : F -> bool)
    (req : Request F) : bool :=
  match method req with
  | POST => validate (form req)
  | GET => false
  end.

(** Targets of [redirect(url_for(...))]. *)
Inductive Endpoint : Type :=
  | url_login
  | url_get_all_posts
  | url_show_post (post_id : Z)
  | url_contact.

(** What a template is rendered with, besides the form and [current_user]. *)
Inductive TemplateArgs : Type :=
  | no_args
  | all_posts (posts : list BlogPost.t)
  | post_args (post : BlogPost.t) (post_comments : list Comment.t)
  | messages_args (messages : list Message.t).

Inductive Response : Type :=
  | redirect (target : Endpoint)
  | render_template (template : string) (args : TemplateArgs)
  | abort (code : Z)
  | InternalServerError.

(** ** The world of one request

    The database, and what the cookie of the requesting browser holds: the
    identifier of the logged-in user, if any, and the flashed messages (the
    templates that show and clear them are not among the sources). *)

Record World : Type := mk_world
  { db : Store;
    session : option Z;
    flashes : list (string * string) }.

Definition commit (s : Store) (w : World) : World :=
  {| db := s; session := session w; flashes := flashes w |}.

(** [flash(message, category)]; the default category is ["message"]. *)
Definition flash_as (category message : string) (w : World) : World :=
  {| db := db w; session := session w;
     flashes := flashes w ++ [(category, message)] |}.

Definition flash (message : string) (w : World) : World :=
  flash_as "message" message w.

Definition login_user (user : User.t) (w : World) : World :=
  {| db := db w; session := Some (User.id user); flashes := flashes w |}.

Definition logout_user (w : World) : World :=
  {| db := db w; session := None; flashes := flashes w |}.

(** [current_user]: anonymous without a session, otherwise the user that
    [load_user] finds. *)
Inductive Identity : Type :=
  | AnonymousUser
  | LoggedIn (user : User.t).

Definition is_authenticated (i : Identity) : bool :=
  match i with AnonymousUser => false | LoggedIn _ => true end.

(** [None] when [load_user] aborts with 404 (the session names a user that
    is not in the table). *)
Definition current_user (w : World) : option Identity :=
  match session w with
  | None => Some AnonymousUser
  | Some user_id =>
      match get_user (db w) user_id with
      | Some u => Some (LoggedIn u)
      | None => None
      end
  end.

(** ** Writes: [db.session.add] or [delete], then [db.session.commit()]

    [None] is the [IntegrityError] of a violated constraint; nothing is
    written then. *)

(** [users.email] is unique. *)
Definition db_add_user (s : Store) (email password name : string)
    : option (User.t * Store) :=
  if existsb (fun u => String.eqb (User.email u) email) (users s) then None
  else
    let new_user := User.mk (next_id (map User.id (users s))) email password name in
    Some (new_user,
          {| blog_posts := blog_posts s; users := users s ++ [new_user];
             comments := comments s; messages := messages s |}).

(** [blog_posts.title] is unique. *)
Definition db_add_post (s : Store) (author_id : Z)
    (title subtitle date body img_url : string) (project_url : option string)
    : option Store :=
  if existsb (fun q => String.eqb (BlogPost.title q) title) (blog_posts s)
  then None
  else
    let new_post :=
      BlogPost.mk (next_id (map BlogPost.id (blog_posts s))) author_id title
        subtitle date body img_url project_url in
    Some {| blog_posts := blog_posts s ++ [new_post]; users := users s;
            comments := comments s; messages := messages s |}.

(** The row [q] after [UPDATE blog_posts SET ... WHERE id = p.id]. *)
Definition updated (p q : BlogPost.t) : BlogPost.t :=
  if BlogPost.id q =? BlogPost.id p then p else q.

(** The UPDATE of one post; its new title must not be that of another row. *)
Definition db_update_post (s : Store) (p : BlogPost.t) : option Store :=
  if existsb (fun q => negb (BlogPost.id q =? BlogPost.id p)
                       && String.eqb (BlogPost.title q) (BlogPost.title p))
       (blog_posts s)
  then None
  else Some {| blog_posts := map (updated p) (blog_posts s);
               users := users s; comments := comments s; messages := messages s |}.

Definition db_add_comment (s : Store) (text : string) (author_id post_id : Z)
    : Comment.t * Store :=
  let c := Comment.mk (next_id (map Comment.id (comments s))) text author_id
             (Some post_id) in
  (c, {| blog_posts := blog_posts s; users := users s;
         comments := comments s ++ [c]; messages := messages s |}).

(** [messages.name], [email] and [message] are NOT NULL; [date] defaults to
    [datetime.now]. *)
Definition db_add_message (s : Store) (f : ContactForm.t) (now : datetime)
    : option Store :=
  match ContactForm.name f, ContactForm.email f, ContactForm.message f with
  | Some name, Some email, Some message_text =>
      let m := Message.mk (next_id (map Message.id (messages s))) name email
                 (ContactForm.phone f) message_text now in
      Some {| blog_posts := blog_posts s; users := users s;
              comments := comments s; messages := messages s ++ [m] |}
  | _, _, _ => None
  end.

(** A comment whose parent post is deleted keeps its row; the ORM writes
    NULL into its [post_id]. *)
Definition orphan (post_id : Z) (c : Comment.t) : Comment.t :=
  if references post_id c
  then Comment.mk (Comment.id c) (Comment.text c) (Comment.author_id c) None
  else c.

(** ** ROUTES *)

Definition Handler : Type := World -> Response * World.

Section Routes.

(** [werkzeug.security]: [generate_password_hash(password,
    method='pbkdf2:sha256', salt_length=8)], with the salt it draws made an
    argument, and [check_password_hash(pwhash, password)]. *)
Variable generate_password_hash : string -> string -> string.
Variable check_password_hash : string -> string -> bool.

(** The validators of the forms of [forms.py]. *)
Variable RegisterForm_validate : RegisterForm.t -> bool.
Variable LoginForm_validate : LoginForm.t -> bool.
Variable CommentForm_validate : CommentForm.t -> bool.
Variable CreatePostForm_validate : CreatePostForm.t -> bool.

(** Whether the column [comments.post_id] accepts NULL.  The ORM derives it
    from the annotation [Mapped[str]] of the column (no [Optional], hence
    NOT NULL, that is [false]); it is kept a parameter, and the properties
    below hold for either value. *)
Variable comments_post_id_nullable : bool.

(** [db.session.delete(post)] and commit.  The relationship
    [BlogPost.comments] has no delete cascade: the ORM detaches the comments
    of the post by writing NULL into their [post_id], which the column must
    accept. *)
Definition db_delete_post (s : Store) (post_id : Z) : option Store :=
  if existsb (references post_id) (comments s) && negb comments_post_id_nullable
  then None
  else Some {| blog_posts :=
                 filter (fun p => negb (BlogPost.id p =? post_id)) (blog_posts s);
               users := users s;
               comments := map (orphan post_id) (comments s);
               messages := messages s |}.

(** *** Admin-only decorator *)

Definition admin_only (f : Handler) : Handler := fun w =>
  match current_user w with
  | None => (abort 404, w)
  | Some AnonymousUser => (abort 403, w)
  | Some (LoggedIn user) =>
      if negb (User.id user =? 1) then (abort 403, w) else f w
  end.

(** [flask_login.login_required]; no login view is configured, so an
    anonymous request is answered 401. *)
Definition login_required (f : Handler) : Handler := fun w =>
  match current_user w with
  | None => (abort 404, w)
  | Some i => if is_authenticated i then f w else (abort 401, w)
  end.

(** *** Register route *)

Definition already_signed_up : string :=
  "You've already signed up with that email, log in instead!".

Definition register (salt : string) (req : Request RegisterForm.t) : Handler :=
  fun w =>
  let f := form req in
  if validate_on_submit RegisterForm_validate req then
    match select_user_by_email (db w) (RegisterForm.email f) with
    | Some _ => (redirect url_login, flash already_signed_up w)
    | None =>
        let hash_and_salted_password :=
          generate_password_hash salt (RegisterForm.password f) in
        match db_add_user (db w) (RegisterForm.email f)
                hash_and_salted_password (RegisterForm.name f) with
        | None => (InternalServerError, w)
        | Some (new_user, s') =>
            (redirect url_get_all_posts, login_user new_user (commit s' w))
        end
    end
  else (render_template "register.html" no_args, w).

(** *** Login route *)

Definition email_does_not_exist : string :=
  "That email does not exist, please try again.".

Definition password_incorrect : string :=
  "Password incorrect, please try again.".

Definition login (req : Request LoginForm.t) : Handler := fun w =>
  let f := form req in
  if validate_on_submit LoginForm_validate req then
    let password := LoginForm.password f in
    match select_user_by_email (db w) (LoginForm.email f) with
    | None => (redirect url_login, flash email_does_not_exist w)
    | Some user =>
        if negb (check_password_hash (User.password user) password)
        then (redirect url_login, flash password_incorrect w)
        else (redirect url_get_all_posts, login_user user w)
    end
  else (render_template "login.html" no_args, w).

(** *** Logout route *)

Definition logout : Handler := fun w =>
  (redirect url_get_all_posts, logout_user w).

(** *** Home route *)

Definition get_all_posts : Handler := fun w =>
  (render_template "index.html" (all_posts (blog_posts (db w))), w).

Definition how_it_works : Handler := fun w =>
  (render_template "how_it_works.html" no_args, w).

(** *** Show post with comments *)

Definition login_to_comment : string :=
  "You need to login or register to comment.".

Definition show_post (post_id : Z) (req : Request CommentForm.t) : Handler :=
  fun w =>
  match get_post (db w) post_id with
  | None => (abort 404, w)
  | Some requested_post =>
      if validate_on_submit CommentForm_validate req then
        match current_user w with
        | None => (abort 404, w)
        | Some AnonymousUser => (redirect url_login, flash login_to_comment w)
        | Some (LoggedIn user) =>
            let '(_, s') :=
              db_add_comment (db w) (CommentForm.comment_text (form req))
                (User.id user) (BlogPost.id requested_post) in
            (render_template "post.html"
               (post_args requested_post
                  (post_comments s' (BlogPost.id requested_post))),
             commit s' w)
        end
      else
        (render_template "post.html"
           (post_args requested_post
              (post_comments (db w) (BlogPost.id requested_post))),
         w)
  end.

(** *** Create new post (admin only) *)

Definition add_new_post (today : datetime) (req : Request CreatePostForm.t)
    : Handler :=
  admin_only (fun w =>
    let f := form req in
    if validate_on_submit CreatePostForm_validate req then
      match current_user w with
      | Some (LoggedIn user) =>
          match db_add_post (db w)
                  (User.id user)
                  (CreatePostForm.title f)
                  (CreatePostForm.subtitle f)
                  (strftime_B_d_Y today)
                  (CreatePostForm.body f)
                  (CreatePostForm.img_url f)
                  (CreatePostForm.project_url f) with
          | None => (InternalServerError, w)
          | Some s' => (redirect url_get_all_posts, commit s' w)
          end
      | Some AnonymousUser => (InternalServerError, w)
      | None => (abort 404, w)
      end
    else (render_template "make-post.html" no_args, w)).

(** *** Edit post route

    The route carries no decorator.  Assigning the anonymous user to
    [post.author] raises in the ORM; nothing is committed then. *)

Definition edit_post (post_id : Z) (req : Request CreatePostForm.t) : Handler :=
  fun w =>
  match get_post (db w) post_id with
  | None => (abort 404, w)
  | Some post =>
      let edit_form := form req in
      if validate_on_submit CreatePostForm_validate req then
        match current_user w with
        | Some (LoggedIn user) =>
            let post' :=
              {| BlogPost.id := BlogPost.id post;
                 BlogPost.title := CreatePostForm.title edit_form;
                 BlogPost.subtitle := CreatePostForm.subtitle edit_form;
                 BlogPost.img_url := CreatePostForm.img_url edit_form;
                 BlogPost.author_id := User.id user;
                 BlogPost.body := CreatePostForm.body edit_form;
                 BlogPost.date := BlogPost.date post;
                 BlogPost.project_url := BlogPost.project_url post |} in
            match db_update_post (db w) post' with
            | None => (InternalServerError, w)
            | Some s' => (redirect (url_show_post (BlogPost.id post)), commit s' w)
            end
        | Some AnonymousUser => (InternalServerError, w)
        | None => (abort 404, w)
        end
      else (render_template "make-post.html" no_args, w)
  end.

(** *** Delete post route (admin only) *)

Definition delete_post (post_id : Z) : Handler :=
  admin_only (fun w =>
    match get_post (db w) post_id with
    | None => (abort 404, w)
    | Some post_to_delete =>
        match db_delete_post (db w) (BlogPost.id post_to_delete) with
        | None => (InternalServerError, w)
        | Some s' => (redirect url_get_all_posts, commit s' w)
        end
    end).

(** *** About page route *)

Definition about : Handler := fun w =>
  (render_template "about.html" no_args, w).

(** *** Contact page route *)

Definition message_sent : string :=
  "âœ… Your message has been sent successfully!".

Definition contact (now : datetime) (req : Request ContactForm.t) : Handler :=
  fun w =>
  match method req with
  | POST =>
      match db_add_message (db w) (form req) now with
      | None => (InternalServerError, w)
      | Some s' => (redirect url_contact, flash_as "success" message_sent (commit s' w))
      end
  | GET => (render_template "contact.html" no_args, w)
  end.

(** *** Admin messages route *)

Definition admin_messages : Handler :=
  admin_only (login_required (fun w =>
    let messages := order_by_date_desc (messages (db w)) in
    (render_template "admin_messages.html" (messages_args messages), w))).

(** ** The application: one request to one route *)

Inductive Route : Type :=
  | route_register (salt : string) (req : Request RegisterForm.t)
  | route_login (req : Request LoginForm.t)
  | route_logout
  | route_get_all_posts
  | route_how_it_works
  | route_show_post (post_id : Z) (req : Request CommentForm.t)
  | route_add_new_post (today : datetime) (req : Request CreatePostForm.t)
  | route_edit_post (post_id : Z) (req : Request CreatePostForm.t)
  | route_delete_post (post_id : Z)
  | route_about
  | route_contact (now : datetime) (req : Request ContactForm.t)
  | route_admin_messages.

Definition app (r : Route) : Handler :=
  match r with
  | route_register salt req => register salt req
  | route_login req => login req
  | route_logout => logout
  | route_get_all_posts => get_all_posts
  | route_how_it_works => how_it_works
  | route_show_post post_id req => show_post post_id req
  | route_add_new_post today req => add_new_post today req
  | route_edit_post post_id req => edit_post post_id req
  | route_delete_post post_id => delete_post post_id
  | route_about => about
  | route_contact now req => contact now req
  | route_admin_messages => admin_messages
  end.

(** The stores the application can be in: the fresh database, and the
    database after one more request, from any browser (any session cookie
    and flashed messages) to any route. *)
Inductive reachable : Store -> Prop :=
  | reachable_create_all : reachable create_all
  | reachable_request (s : Store) (cookie : option Z)
      (fl : list (string * string)) (r : Route) :
      reachable s ->
      reachable (db (snd (app r {| db := s; session := cookie; flashes := fl |}))).

(** ** Predicates of the properties below *)

(** Primary keys and the two unique columns hold no value twice. *)
Definition store_ok (s : Store) : Prop :=
  NoDup (map BlogPost.id (blog_posts s))
  /\ NoDup (map BlogPost.title (blog_posts s))
  /\ NoDup (map User.email (users s)).

(** What one request may commit to the store. *)
Inductive commits : Store -> Store -> Prop :=
  | commits_nothing (s : Store) : commits s s
  | commits_user (s : Store) (email password name : string) (u : User.t)
      (s' : Store) :
      db_add_user s email password name = Some (u, s') -> commits s s'
  | commits_post (s : Store) (author_id : Z)
      (title subtitle date body img_url : string)
      (project_url : option string) (s' : Store) :
      db_add_post s author_id title subtitle date body img_url project_url
        = Some s' ->
      commits s s'
  | commits_update (s : Store) (p : BlogPost.t) (s' : Store) :
      db_update_post s p = Some s' -> commits s s'
  | commits_comment (s : Store) (text : string) (author_id post_id : Z) :
      commits s (snd (db_add_comment s text author_id post_id))
  | commits_message (s : Store) (f : ContactForm.t) (now : datetime)
      (s' : Store) :
      db_add_message s f now = Some s' -> commits s s'
  | commits_delete (s : Store) (post_id : Z) (s' : Store) :
      db_delete_post s post_id = Some s' -> commits s s'.

(** [not_older a b]: message [a] was created at or after message [b]. *)
Definition not_older (a b : Message.t) : Prop :=
  datetime_geb (Message.date a) (Message.date b) = true.

(** An outcome that tells the user of a conflict: a redirect, with one more
    flashed message than before the request. *)
Definition surfaced_as_conflict (w : World) (out : Response * World) : Prop :=
  exists target category message,
    fst out = redirect target
    /\ flashes (snd out) = flashes w ++ [(category, message)].

(** A post all of whose form fields are the submitted ones, written by
    [editor]. *)
Definition all_fields_rewritten (f : CreatePostForm.t) (editor : User.t)
    (p : BlogPost.t) : Prop :=
  BlogPost.title p = CreatePostForm.title f
  /\ BlogPost.subtitle p = CreatePostForm.subtitle f
  /\ BlogPost.body p = CreatePostForm.body f
  /\ BlogPost.img_url p = CreatePostForm.img_url f
  /\ BlogPost.project_url p = CreatePostForm.project_url f
  /\ BlogPost.author_id p = User.id editor.

(** Whether the request asks the route to act: a validated form, a POST of
    the contact page, or one of the two routes that act on a plain GET
    (logout and delete). *)
Definition submitted (r : Route) : bool :=
  match r with
  | route_register _ req => validate_on_submit RegisterForm_validate req
  | route_login req => validate_on_submit LoginForm_validate req
  | route_logout => true
  | route_show_post _ req => validate_on_submit CommentForm_validate req
  | route_add_new_post _ req => validate_on_submit CreatePostForm_validate req
  | route_edit_post _ req => validate_on_submit CreatePostForm_validate req
  | route_delete_post _ => true
  | route_contact _ req => match method req with POST => true | GET => false end
  | route_get_all_posts | route_how_it_works | route_about
  | route_admin_messages => false
  end.

(** The foreign keys name stored rows: the author of a post and of a comment
    is a stored user, the parent of a comment, when it has one, a stored
    post. *)
Definition references_ok (s : Store) : Prop :=
  (forall p, In p (blog_posts s) ->
     In (BlogPost.author_id p) (map User.id (users s)))
  /\ (forall c, In c (comments s) ->
        In (Comment.author_id c) (map User.id (users s)))
  /\ (forall c post_id, In c (comments s) -> Comment.post_id c = Some post_id ->
        In post_id (map BlogPost.id (blog_posts s))).

(** The primary keys of users, comments and messages hold no value twice,
    and every user identifier is at least 1. *)
Definition keys_ok (s : Store) : Prop :=
  NoDup (map User.id (users s))
  /\ NoDup (map Comment.id (comments s))
  /\ NoDup (map Message.id (messages s))
  /\ (forall u, In u (users s) -> 1 <= User.id u).

(** ** A small blog, used by the examples at the end

    Two users (the administrator and Alice), two posts by the administrator,
    one comment of Alice on the first post and two contact messages.  The
    stand-ins for the parameters: forms that validate always and a toy
    password hash. *)

Definition accept {F : Type} (f : F) : bool := true.

Definition toy_hash (salt password : string) : string :=
  ("toy$" ++ password)%string.

Definition toy_check (pwhash password : string) : bool :=
  String.eqb pwhash ("toy$" ++ password)%string.

Definition new_year : datetime := mk_datetime 2020 1 1 9 0 0 0.
Definition spring_day : datetime := mk_datetime 2020 3 5 18 30 0 0.

Definition sample_admin : User.t :=
  User.mk 1 "admin@x.com" "toy$secret" "Admin".

Definition sample_alice : User.t :=
  User.mk 2 "a@x.com" "toy$pw" "Alice".

Definition sample_post1 : BlogPost.t :=
  BlogPost.mk 1 1 "T1" "first" "January 01, 2020" "body one" "one.png"
    (Some "http://old.example").

Definition sample_post2 : BlogPost.t :=
  BlogPost.mk 2 1 "T2" "second" "January 01, 2020" "body two" "two.png" None.

Definition sample_comment : Comment.t := Comment.mk 1 "nice" 2 (Some 1).

Definition sample_message1 : Message.t :=
  Message.mk 1 "Bob" "bob@x.com" None "hello" new_year.

Definition sample_message2 : Message.t :=
  Message.mk 2 "Carol" "carol@x.com" (Some "555") "hi again" spring_day.

Definition sample_store : Store :=
  {| blog_posts := [sample_post1; sample_post2];
     users := [sample_admin; sample_alice];
     comments := [sample_comment];
     messages := [sample_message1; sample_message2] |}.

Definition as_admin : World :=
  {| db := sample_store; session := Some 1; flashes := [] |}.

Definition as_alice : World :=
  {| db := sample_store; session := Some 2; flashes := [] |}.

Definition as_anonymous : World :=
  {| db := sample_store; session := None; flashes := [] |}.

Definition post_form (title : string) (project_url : option string)
    : Request CreatePostForm.t :=
  mk_request POST
    (CreatePostForm.mk title "a subtitle" "new.png" "a body" project_url).

Definition comment_form : Request CommentForm.t :=
  mk_request POST (CommentForm.mk "me too").

Definition register_form (email : string) : Request RegisterForm.t :=
  mk_request POST (RegisterForm.mk email "pw" "Bob").

Definition login_form (email password : string) : Request LoginForm.t :=
  mk_request POST (LoginForm.mk email password).

Definition as_stranger : World :=
  {| db := sample_store; session := Some 99; flashes := [] |}.

Definition fresh_blog : World :=
  {| db := create_all; session := None; flashes := [] |}.

Definition contact_form (name message : option string)
    : Request ContactForm.t :=
  mk_request POST (ContactForm.mk name (Some "dave@x.com") None message).

(** ** Primary keys *)

Lemma fold_max_upper (ids : list Z) (x : Z) :
  In x ids -> x <= fold_right Z.max 0 ids.
Proof.
  induction ids as [|a l IH]; simpl; intros Hx; [contradiction|].
  destruct Hx as [->|Hx]; [lia|]. specialize (IH Hx). lia.
Qed.

Lemma next_id_fresh (ids : list Z) (x : Z) : In x ids -> x <> next_id ids.
Proof.
  intros Hx. pose proof (fold_max_upper ids x Hx). unfold next_id. lia.
Qed.

Lemma find_fresh_row (l : list User.t) (u : User.t) (n : Z) :
  (forall x, In x l -> User.id x <> n) ->
  User.id u = n ->
  find (fun x => User.id x =? n) (l ++ [u]) = Some u.
Proof.
  intros Hl Hu. induction l as [|x l IH]; simpl.
  - rewrite Hu, Z.eqb_refl. reflexivity.
  - destruct (Z.eqb_spec (User.id x) n) as [E|E].
    + exfalso. apply (Hl x); [left; reflexivity | exact E].
    + apply IH. intros y Hy. apply Hl. right. exact Hy.
Qed.

(** ** Registration and login *)

Lemma select_user_by_email_existsb (s : Store) (email : string) :
  select_user_by_email s email = None ->
  existsb (fun u => String.eqb (User.email u) email) (users s) = false.
Proof.
  unfold select_user_by_email.
  induction (users s) as [|u l IH]; simpl; [reflexivity|].
  destruct (String.eqb (User.email u) email); [discriminate | exact IH].
Qed.

Lemma select_user_by_email_app (s : Store) (email : string) (l : list User.t)
    (u : User.t) :
  User.email u = email ->
  select_user_by_email
    {| blog_posts := blog_posts s; users := l ++ [u];
       comments := comments s; messages := messages s |} email <> None.
Proof.
  intros He. unfold select_user_by_email. simpl.
  induction l as [|x l IH]; simpl.
  - rewrite He, String.eqb_refl. discriminate.
  - destruct (String.eqb (User.email x) email); [discriminate | exact IH].
Qed.

(** A validated registration with a free email commits one new row. *)
Lemma register_new_email (salt : string) (req : Request RegisterForm.t)
    (w : World) :
  validate_on_submit RegisterForm_validate req = true ->
  select_user_by_email (db w) (RegisterForm.email (form req)) = None ->
  let new_user :=
    {| User.id := next_id (map User.id (users (db w)));
       User.email := RegisterForm.email (form req);
       User.password :=
         generate_password_hash salt (RegisterForm.password (form req));
       User.name := RegisterForm.name (form req) |} in
  register salt req w =
    (redirect url_get_all_posts,
     {| db := {| blog_posts := blog_posts (db w);
                 users := users (db w) ++ [new_user];
                 comments := comments (db w);
                 messages := messages (db w) |};
        session := Some (User.id new_user);
        flashes := flashes w |}).
Proof.
  intros Hv Hnone. unfold register, db_add_user.
  rewrite Hv, Hnone, (select_user_by_email_existsb _ _ Hnone).
  reflexivity.
Qed.

(** C2. Registration never stores an email twice.  For a validated
    registration form: when a user with the submitted email exists, the
    store is left as it was, the already-registered message is flashed and
    the answer is a redirect to login; otherwise exactly one user row is
    appended, holding the submitted email and name and the hash of the
    submitted password, the session is bound to that new user, and a second
    validated registration of the same email, from any browser, changes
    nothing in the store and redirects to login. *)
Theorem register_never_duplicates (salt : string)
    (req : Request RegisterForm.t) (w : World) :
  validate_on_submit RegisterForm_validate req = true ->
  let email := RegisterForm.email (form req) in
  let w' := snd (register salt req w) in
  (forall user, select_user_by_email (db w) email = Some user ->
     register salt req w = (redirect url_login, flash already_signed_up w)
     /\ db w' = db w /\ session w' = session w)
  /\
  (select_user_by_email (db w) email = None ->
     (exists new_user,
        fst (register salt req w) = redirect url_get_all_posts
        /\ users (db w') = users (db w) ++ [new_user]
        /\ User.email new_user = email
        /\ User.name new_user = RegisterForm.name (form req)
        /\ User.password new_user =
             generate_password_hash salt (RegisterForm.password (form req))
        /\ session w' = Some (User.id new_user)
        /\ get_user (db w') (User.id new_user) = Some new_user
        /\ blog_posts (db w') = blog_posts (db w)
        /\ comments (db w') = comments (db w)
        /\ messages (db w') = messages (db w))
     /\
     (forall salt2 req2 cookie2 flashes2,
        validate_on_submit RegisterForm_validate req2 = true ->
        RegisterForm.email (form req2) = email ->
        let w2 := {| db := db w'; session := cookie2; flashes := flashes2 |} in
        register salt2 req2 w2 = (redirect url_login, flash already_signed_up w2)
        /\ users (db (snd (register salt2 req2 w2))) = users (db w'))).
Proof.
  intros Hv email w'. split.
  - intros user Hsome. subst w'. unfold register.
    fold email. rewrite Hv, Hsome. repeat split.
  - intros Hnone.
    pose proof (register_new_email salt req w Hv Hnone) as Hreg.
    cbv zeta in Hreg. subst w'. rewrite Hreg. split.
    + simpl. eexists. repeat split; try reflexivity.
      unfold get_user. simpl. apply find_fresh_row; [|reflexivity].
      intros x Hx. apply next_id_fresh. apply (in_map User.id). exact Hx.
    + intros salt2 req2 cookie2 flashes2 Hv2 He2 w2.
      unfold register. rewrite Hv2.
      destruct (select_user_by_email (db w2) (RegisterForm.email (form req2)))
        as [u|] eqn:Hsel.
      * split; reflexivity.
      * exfalso. revert Hsel. subst w2. rewrite He2.
        apply select_user_by_email_app. reflexivity.
Qed.

(** C7. A validated login form has three outcomes.  An email that no user
    row carries: the unknown-email message is flashed, the answer is a
    redirect to login and the session is left as it was.  A known email
    whose stored hash rejects the password: the wrong-password message, a
    different one, is flashed, with the same redirect and the session left
    as it was.  A known email and an accepted password: the session is
    bound to that user. *)
Theorem login_outcomes (req : Request LoginForm.t) (w : World) :
  validate_on_submit LoginForm_validate req = true ->
  let w' := snd (login req w) in
  (select_user_by_email (db w) (LoginForm.email (form req)) = None ->
     login req w = (redirect url_login, flash email_does_not_exist w)
     /\ session w' = session w /\ db w' = db w)
  /\
  (forall user,
     select_user_by_email (db w) (LoginForm.email (form req)) = Some user ->
     check_password_hash (User.password user) (LoginForm.password (form req))
       = false ->
     login req w = (redirect url_login, flash password_incorrect w)
     /\ session w' = session w /\ db w' = db w)
  /\
  (forall user,
     select_user_by_email (db w) (LoginForm.email (form req)) = Some user ->
     check_password_hash (User.password user) (LoginForm.password (form req))
       = true ->
     login req w = (redirect url_get_all_posts, login_user user w)
     /\ session w' = Some (User.id user) /\ db w' = db w)
  /\ email_does_not_exist <> password_incorrect.
Proof.
  intros Hv w'. subst w'. unfold login. rewrite Hv.
  split; [|split; [|split]].
  - intros Hnone. rewrite Hnone. repeat split.
  - intros user Hsome Hcheck. rewrite Hsome, Hcheck. repeat split.
  - intros user Hsome Hcheck. rewrite Hsome, Hcheck. repeat split.
  - discriminate.
Qed.

(** ** Comments *)

(** C3. A validated comment form submitted to an existing post.  From an
    anonymous browser: the store is left as it was (no comment row is
    added), the login notice is flashed and the answer is a redirect to
    login.  From a logged-in user: exactly one comment row is appended, with
    the submitted text, that user as author and the post as parent; the
    other tables are left as they were and the post is rendered with its
    comments, the new one last. *)
Theorem show_post_comment_submission (post_id : Z)
    (req : Request CommentForm.t) (w : World) (post : BlogPost.t) :
  get_post (db w) post_id = Some post ->
  validate_on_submit CommentForm_validate req = true ->
  let w' := snd (show_post post_id req w) in
  (current_user w = Some AnonymousUser ->
     show_post post_id req w = (redirect url_login, flash login_to_comment w)
     /\ db w' = db w)
  /\
  (forall user, current_user w = Some (LoggedIn user) ->
     exists c,
       comments (db w') = comments (db w) ++ [c]
       /\ Comment.text c = CommentForm.comment_text (form req)
       /\ Comment.author_id c = User.id user
       /\ Comment.post_id c = Some post_id
       /\ blog_posts (db w') = blog_posts (db w)
       /\ users (db w') = users (db w)
       /\ messages (db w') = messages (db w)
       /\ session w' = session w
       /\ fst (show_post post_id req w) =
            render_template "post.html"
              (post_args post (post_comments (db w) post_id ++ [c]))).
Proof.
  intros Hpost Hv w'. subst w'. unfold show_post. rewrite Hpost, Hv.
  assert (Hid : BlogPost.id post = post_id).
  { unfold get_post in Hpost. apply find_some in Hpost.
    destruct Hpost as [_ H]. apply Z.eqb_eq. exact H. }
  split.
  - intros Hanon. rewrite Hanon. split; reflexivity.
  - intros user Huser. rewrite Huser. simpl.
    eexists. repeat split; try reflexivity.
    + simpl. rewrite Hid. reflexivity.
    + unfold post_comments. simpl. rewrite filter_app. simpl.
      unfold references at 2. simpl. rewrite Z.eqb_refl, Hid. reflexivity.
Qed.

(** ** The admin gate *)

(** Past the gate the current user is the row with identifier 1. *)
Lemma admin_only_admin (f : Handler) (w : World) (user : User.t) :
  current_user w = Some (LoggedIn user) -> User.id user = 1 ->
  admin_only f w = f w.
Proof.
  intros Hcur Hid. unfold admin_only. rewrite Hcur. simpl.
  rewrite Hid. reflexivity.
Qed.

(** Everyone else the gate answers 403, and the handler is not run. *)
Lemma admin_only_forbidden (f : Handler) (w : World) (i : Identity) :
  current_user w = Some i ->
  (forall user, i = LoggedIn user -> User.id user <> 1) ->
  admin_only f w = (abort 403, w).
Proof.
  intros Hcur Hnot. unfold admin_only. rewrite Hcur.
  destruct i as [|user]; simpl; [reflexivity|].
  destruct (Z.eqb_spec (User.id user) 1) as [E|E]; [|reflexivity].
  exfalso. exact (Hnot user eq_refl E).
Qed.

Lemma admin_only_cases (f : Handler) (w : World) :
  admin_only f w = f w \/ snd (admin_only f w) = w.
Proof.
  unfold admin_only. destruct (current_user w) as [[|user]|]; simpl; auto.
  destruct (User.id user =? 1); simpl; auto.
Qed.

(** X1. The three decorated routes (new post, delete, message list) answer
    403 to every identity but user 1, anonymous or logged in, and leave the
    world as it was. *)
Lemma admin_routes_forbidden (w : World) (i : Identity) (today : datetime)
    (req : Request CreatePostForm.t) (post_id : Z) :
  current_user w = Some i ->
  (forall user, i = LoggedIn user -> User.id user <> 1) ->
  add_new_post today req w = (abort 403, w)
  /\ delete_post post_id w = (abort 403, w)
  /\ admin_messages w = (abort 403, w).
Proof.
  intros Hcur Hnot. repeat split; apply (admin_only_forbidden _ w i Hcur Hnot).
Qed.

(** ** Messages, newest first *)

Lemma lex_opp (c1 c2 : comparison) :
  lex (CompOpp c1) (CompOpp c2) = CompOpp (lex c1 c2).
Proof. destruct c1; reflexivity. Qed.

Lemma datetime_compare_antisym (a b : datetime) :
  datetime_compare b a = CompOpp (datetime_compare a b).
Proof.
  unfold datetime_compare.
  rewrite (Z.compare_antisym (year a)), (Z.compare_antisym (month a)),
    (Z.compare_antisym (day a)), (Z.compare_antisym (hour a)),
    (Z.compare_antisym (minute a)), (Z.compare_antisym (second a)),
    (Z.compare_antisym (microsecond a)).
  rewrite !lex_opp. reflexivity.
Qed.

Lemma datetime_geb_total (a b : datetime) :
  datetime_geb a b = false -> datetime_geb b a = true.
Proof.
  unfold datetime_geb. rewrite (datetime_compare_antisym a b).
  destruct (datetime_compare a b); simpl; congruence.
Qed.

Lemma insert_desc_HdRel (m x : Message.t) (l : list Message.t) :
  not_older x m -> HdRel not_older x l -> HdRel not_older x (insert_desc m l).
Proof.
  intros Hxm Hhd. destruct l as [|y l]; simpl.
  - constructor. exact Hxm.
  - destruct (datetime_geb (Message.date m) (Message.date y)).
    + constructor. exact Hxm.
    + constructor. inversion Hhd; assumption.
Qed.

Lemma insert_desc_Sorted (m : Message.t) (l : list Message.t) :
  Sorted not_older l -> Sorted not_older (insert_desc m l).
Proof.
  induction l as [|x l IH]; simpl; intros Hs.
  - repeat constructor.
  - destruct (datetime_geb (Message.date m) (Message.date x)) eqn:Hge.
    + constructor; [exact Hs | constructor; exact Hge].
    + inversion Hs as [|? ? Hs' Hhd]; subst.
      constructor; [exact (IH Hs')|].
      apply insert_desc_HdRel; [|exact Hhd].
      apply datetime_geb_total. exact Hge.
Qed.

Lemma insert_desc_Permutation (m : Message.t) (l : list Message.t) :
  Permutation (insert_desc m l) (m :: l).
Proof.
  induction l as [|x l IH]; simpl; [reflexivity|].
  destruct (datetime_geb (Message.date m) (Message.date x)); [reflexivity|].
  rewrite IH. apply perm_swap.
Qed.

Lemma order_by_date_desc_Sorted (l : list Message.t) :
  Sorted not_older (order_by_date_desc l).
Proof.
  induction l as [|m l IH]; simpl; [constructor|].
  apply insert_desc_Sorted. exact IH.
Qed.

Lemma order_by_date_desc_Permutation (l : list Message.t) :
  Permutation (order_by_date_desc l) l.
Proof.
  induction l as [|m l IH]; simpl; [reflexivity|].
  rewrite insert_desc_Permutation, IH. reflexivity.
Qed.

Lemma Sorted_adjacent (l : list Message.t) :
  Sorted not_older l ->
  forall (i : nat) (a b : Message.t),
    nth_error l i = Some a -> nth_error l (S i) = Some b -> not_older a b.
Proof.
  induction 1 as [|x l Hs IH Hhd]; intros i a b Ha Hb.
  - destruct i; discriminate.
  - destruct i as [|i]; simpl in Ha, Hb.
    + injection Ha as <-. destruct l as [|y l]; [discriminate|].
      simpl in Hb. injection Hb as <-. inversion Hhd; assumption.
    + exact (IH i a b Ha Hb).
Qed.

(** C8. For the administrator the message list is rendered with every
    stored message, each once, newest first: of two neighbours in the
    rendered list the one listed first has a creation timestamp that is not
    older than that of the one listed after it. *)
Theorem admin_messages_newest_first (w : World) (user : User.t) :
  current_user w = Some (LoggedIn user) -> User.id user = 1 ->
  exists listed,
    admin_messages w =
      (render_template "admin_messages.html" (messages_args listed), w)
    /\ Permutation listed (messages (db w))
    /\ forall (i : nat) (a b : Message.t),
         nth_error listed i = Some a -> nth_error listed (S i) = Some b ->
         datetime_geb (Message.date a) (Message.date b) = true.
Proof.
  intros Hcur Hid. exists (order_by_date_desc (messages (db w))).
  split; [|split].
  - unfold admin_messages. rewrite (admin_only_admin _ w user Hcur Hid).
    unfold login_required. rewrite Hcur. reflexivity.
  - apply order_by_date_desc_Permutation.
  - apply (Sorted_adjacent _ (order_by_date_desc_Sorted _)).
Qed.

(** ** Deleting a post *)

Lemma get_post_id (s : Store) (post_id : Z) (post : BlogPost.t) :
  get_post s post_id = Some post -> In post (blog_posts s) /\ BlogPost.id post = post_id.
Proof.
  unfold get_post. intros Hfind. apply find_some in Hfind.
  destruct Hfind as [Hin Heq]. split; [exact Hin | apply Z.eqb_eq; exact Heq].
Qed.

Lemma find_absent {A : Type} (f : A -> bool) (l : list A) :
  (forall x, In x l -> f x = false) -> find f l = None.
Proof.
  induction l as [|a l IH]; simpl; intros Hall; [reflexivity|].
  rewrite (Hall a (or_introl eq_refl)). apply IH.
  intros x Hx. apply Hall. right. exact Hx.
Qed.

(** What a request to the delete route does to the store: nothing, or the
    committed removal of the post it names. *)
Lemma delete_post_db (post_id : Z) (w : World) (r : Response) (w' : World) :
  delete_post post_id w = (r, w') ->
  (r <> redirect url_get_all_posts /\ w' = w)
  \/ (r = redirect url_get_all_posts
      /\ (exists post, get_post (db w) post_id = Some post)
      /\ db_delete_post (db w) post_id = Some (db w')
      /\ session w' = session w /\ flashes w' = flashes w).
Proof.
  unfold delete_post, admin_only.
  destruct (current_user w) as [[|user]|]; simpl;
    try (intros [= <- <-]; left; split; [discriminate | reflexivity]).
  destruct (User.id user =? 1); simpl;
    try (intros [= <- <-]; left; split; [discriminate | reflexivity]).
  destruct (get_post (db w) post_id) as [post|] eqn:Hget;
    try (intros [= <- <-]; left; split; [discriminate | reflexivity]).
  destruct (get_post_id _ _ _ Hget) as [_ Hid]. rewrite Hid.
  destruct (db_delete_post (db w) post_id) as [s'|] eqn:Hdel;
    intros [= <- <-].
  - right. repeat split; eauto.
  - left. split; [discriminate | reflexivity].
Qed.

(** C4. After a delete request that succeeded (it was answered with the
    redirect to the home page) the post it named was in the store before,
    the list of all posts shows no post with that identifier and shows every
    other post that was there, and the page of that identifier is answered
    404. *)
Theorem delete_post_removes_post (post_id : Z) (w w' : World) :
  delete_post post_id w = (redirect url_get_all_posts, w') ->
  (exists post, get_post (db w) post_id = Some post)
  /\ (exists listed,
        get_all_posts w' = (render_template "index.html" (all_posts listed), w')
        /\ (forall p, In p listed -> BlogPost.id p <> post_id)
        /\ (forall p, In p (blog_posts (db w)) -> BlogPost.id p <> post_id ->
                      In p listed))
  /\ (forall req, show_post post_id req w' = (abort 404, w')).
Proof.
  intros Hdel. apply delete_post_db in Hdel.
  destruct Hdel as [[Hne _]|(_ & Hpost & Hdb & _)]; [congruence|].
  unfold db_delete_post in Hdb.
  destruct (existsb (references post_id) (comments (db w))
            && negb comments_post_id_nullable); [discriminate|].
  injection Hdb as Hdb.
  assert (Hposts : blog_posts (db w') =
            filter (fun p => negb (BlogPost.id p =? post_id)) (blog_posts (db w))).
  { rewrite <- Hdb. reflexivity. }
  split; [exact Hpost|]. split.
  - exists (blog_posts (db w')). split; [reflexivity|]. rewrite Hposts. split.
    + intros p Hp. apply filter_In in Hp. destruct Hp as [_ Hp].
      apply negb_true_iff, Z.eqb_neq in Hp. exact Hp.
    + intros p Hp Hne. apply filter_In. split; [exact Hp|].
      apply negb_true_iff, Z.eqb_neq. exact Hne.
  - intros req. unfold show_post, get_post. rewrite Hposts.
    rewrite find_absent; [reflexivity|].
    intros p Hp. apply filter_In in Hp. destruct Hp as [_ Hp].
    apply negb_true_iff in Hp. exact Hp.
Qed.

Lemma orphan_keeps (post_id : Z) (c : Comment.t) :
  Comment.id (orphan post_id c) = Comment.id c
  /\ Comment.text (orphan post_id c) = Comment.text c
  /\ Comment.author_id (orphan post_id c) = Comment.author_id c.
Proof. unfold orphan. destruct (references post_id c); repeat split. Qed.

(** C10. A delete request removes no comment row, however it is answered
    (the successful answer included): the comment table keeps its length,
    and every comment that referenced the post named by the request is
    still in the table, with its identifier, text and author. *)
Theorem delete_post_keeps_comments (post_id : Z) (w : World) (r : Response)
    (w' : World) :
  delete_post post_id w = (r, w') ->
  List.length (comments (db w')) = List.length (comments (db w))
  /\ forall c, In c (comments (db w)) -> Comment.post_id c = Some post_id ->
       exists c', In c' (comments (db w'))
                  /\ Comment.id c' = Comment.id c
                  /\ Comment.text c' = Comment.text c
                  /\ Comment.author_id c' = Comment.author_id c.
Proof.
  intros Hdel. apply delete_post_db in Hdel.
  destruct Hdel as [[_ ->]|(_ & _ & Hdb & _)].
  - split; [reflexivity|]. intros c Hc _. exists c. repeat split. exact Hc.
  - unfold db_delete_post in Hdb.
    destruct (existsb (references post_id) (comments (db w))
              && negb comments_post_id_nullable); [discriminate|].
    injection Hdb as Hdb. rewrite <- Hdb. simpl. split.
    + apply length_map.
    + intros c Hc _. exists (orphan post_id c).
      split; [apply in_map; exact Hc | apply orphan_keeps].
Qed.

(** ** Editing a post *)

Lemma find_updated (p : BlogPost.t) (l : list BlogPost.t) (post : BlogPost.t) :
  find (fun q => BlogPost.id q =? BlogPost.id p) l = Some post ->
  find (fun q => BlogPost.id q =? BlogPost.id p) (map (updated p) l) = Some p.
Proof.
  assert (Hid : forall q, (BlogPost.id (updated p q) =? BlogPost.id p)
                          = (BlogPost.id q =? BlogPost.id p)).
  { intros q. unfold updated.
    destruct (BlogPost.id q =? BlogPost.id p) eqn:Hq;
      [apply Z.eqb_refl | exact Hq]. }
  induction l as [|a l IH]; simpl; [discriminate|]. rewrite Hid.
  destruct (BlogPost.id a =? BlogPost.id p) eqn:Ha.
  - intros _. unfold updated. rewrite Ha. reflexivity.
  - exact IH.
Qed.

(** What a request to the edit route does to the store: nothing, or the
    committed update of the post it names. *)
Lemma edit_post_db (post_id : Z) (req : Request CreatePostForm.t) (w : World)
    (r : Response) (w' : World) :
  edit_post post_id req w = (r, w') ->
  ((forall target, r <> redirect target) /\ w' = w)
  \/ exists post editor,
       get_post (db w) post_id = Some post
       /\ validate_on_submit CreatePostForm_validate req = true
       /\ current_user w = Some (LoggedIn editor)
       /\ r = redirect (url_show_post post_id)
       /\ db_update_post (db w)
            {| BlogPost.id := post_id;
               BlogPost.author_id := User.id editor;
               BlogPost.title := CreatePostForm.title (form req);
               BlogPost.subtitle := CreatePostForm.subtitle (form req);
               BlogPost.date := BlogPost.date post;
               BlogPost.body := CreatePostForm.body (form req);
               BlogPost.img_url := CreatePostForm.img_url (form req);
               BlogPost.project_url := BlogPost.project_url post |}
          = Some (db w')
       /\ session w' = session w /\ flashes w' = flashes w.
Proof.
  unfold edit_post.
  destruct (get_post (db w) post_id) as [post|] eqn:Hget;
    try (intros [= <- <-]; left; split; [discriminate | reflexivity]).
  destruct (get_post_id _ _ _ Hget) as [_ Hid]. rewrite Hid.
  destruct (validate_on_submit CreatePostForm_validate req);
    try (intros [= <- <-]; left; split; [discriminate | reflexivity]).
  destruct (current_user w) as [[|editor]|];
    try (intros [= <- <-]; left; split; [discriminate | reflexivity]).
  match goal with
  | |- context [db_update_post ?s ?p] =>
      destruct (db_update_post s p) as [s'|] eqn:Hup
  end; intros [= <- <-].
  - right. exists post, editor. repeat split; try reflexivity. exact Hup.
  - left. split; [discriminate | reflexivity].
Qed.

(** C9 as amended. After an edit request that succeeded (it was answered
    with a redirect) the post it named has the submitted title, subtitle,
    body and image URL, and its author is the user who sent the request;
    its identifier and its date are the ones it had before. *)
Theorem edit_post_rewrites (post_id : Z) (req : Request CreatePostForm.t)
    (w : World) (target : Endpoint) (w' : World) :
  edit_post post_id req w = (redirect target, w') ->
  exists post editor edited,
    get_post (db w) post_id = Some post
    /\ current_user w = Some (LoggedIn editor)
    /\ target = url_show_post post_id
    /\ get_post (db w') post_id = Some edited
    /\ BlogPost.title edited = CreatePostForm.title (form req)
    /\ BlogPost.subtitle edited = CreatePostForm.subtitle (form req)
    /\ BlogPost.body edited = CreatePostForm.body (form req)
    /\ BlogPost.img_url edited = CreatePostForm.img_url (form req)
    /\ BlogPost.author_id edited = User.id editor
    /\ BlogPost.id edited = post_id
    /\ BlogPost.date edited = BlogPost.date post.
Proof.
  intros Hedit. apply edit_post_db in Hedit.
  destruct Hedit as [[Hne _]|(post & editor & Hget & _ & Hcur & Hr & Hup & _)].
  - exfalso. exact (Hne target eq_refl).
  - injection Hr as ->. unfold db_update_post in Hup.
    match type of Hup with
    | (if ?c then _ else _) = _ => destruct c; [discriminate|]
    end.
    injection Hup as Hup. eexists post, editor, _.
    split; [exact Hget|]. split; [exact Hcur|]. split; [reflexivity|].
    split.
    + unfold get_post. rewrite <- Hup.
      match goal with
      | |- context [updated ?p] => exact (find_updated p _ post Hget)
      end.
    + repeat split.
Qed.

(** ** Unique columns in every reachable store *)

Lemma existsb_eqb_absent {A : Type} (f : A -> string) (t : string)
    (l : list A) :
  existsb (fun q => String.eqb (f q) t) l = false -> ~ In t (map f l).
Proof.
  induction l as [|a l IH]; simpl; intros Hex Hin; [exact Hin|].
  apply orb_false_iff in Hex. destruct Hex as [Ha Hl].
  destruct Hin as [Hin|Hin].
  - rewrite Hin, String.eqb_refl in Ha. discriminate.
  - exact (IH Hl Hin).
Qed.

Lemma existsb_eqb_present {A : Type} (f : A -> string) (l : list A) (a : A) :
  In a l -> existsb (fun q => String.eqb (f q) (f a)) l = true.
Proof.
  intros Hin. apply existsb_exists. exists a.
  split; [exact Hin | apply String.eqb_refl].
Qed.

Lemma NoDup_map_snoc {A B : Type} (f : A -> B) (l : list A) (x : A) :
  NoDup (map f l) -> ~ In (f x) (map f l) -> NoDup (map f (l ++ [x])).
Proof.
  intros Hnd Hfresh. rewrite map_app. apply NoDup_app.
  - exact Hnd.
  - simpl. constructor; [intros [] | constructor].
  - intros b Hb [Hx|[]]. subst b. exact (Hfresh Hb).
Qed.

Lemma NoDup_map_filter {A B : Type} (f : A -> B) (g : A -> bool) (l : list A) :
  NoDup (map f l) -> NoDup (map f (filter g l)).
Proof.
  induction l as [|a l IH]; simpl; intros Hnd; [constructor|].
  inversion Hnd as [|? ? Hnotin Hnd']; subst.
  destruct (g a); simpl; [|exact (IH Hnd')].
  constructor; [|exact (IH Hnd')].
  intros Hin. apply Hnotin. apply in_map_iff in Hin.
  destruct Hin as (x & Hfx & Hx). apply filter_In in Hx.
  apply in_map_iff. exists x. tauto.
Qed.

Lemma updated_ids (p : BlogPost.t) (l : list BlogPost.t) :
  map BlogPost.id (map (updated p) l) = map BlogPost.id l.
Proof.
  induction l as [|a l IH]; simpl; [reflexivity|]. rewrite IH. f_equal.
  unfold updated. destruct (Z.eqb_spec (BlogPost.id a) (BlogPost.id p));
    congruence.
Qed.

Lemma updated_others (p : BlogPost.t) (l : list BlogPost.t) :
  (forall q, In q l -> BlogPost.id q <> BlogPost.id p) -> map (updated p) l = l.
Proof.
  induction l as [|a l IH]; simpl; intros Hall; [reflexivity|].
  rewrite IH by (intros q Hq; apply Hall; right; exact Hq). f_equal.
  unfold updated. destruct (Z.eqb_spec (BlogPost.id a) (BlogPost.id p)) as [E|E];
    [|reflexivity].
  exfalso. exact (Hall a (or_introl eq_refl) E).
Qed.

Lemma updated_titles (p : BlogPost.t) (l : list BlogPost.t) :
  NoDup (map BlogPost.id l) ->
  NoDup (map BlogPost.title l) ->
  (forall q, In q l -> BlogPost.id q <> BlogPost.id p ->
             BlogPost.title q <> BlogPost.title p) ->
  NoDup (map BlogPost.title (map (updated p) l)).
Proof.
  induction l as [|a l IH]; simpl; intros Hids Htitles Hother; [constructor|].
  inversion Hids as [|? ? Hid_a Hids']; subst.
  inversion Htitles as [|? ? Htitle_a Htitles']; subst.
  unfold updated at 1.
  destruct (Z.eqb_spec (BlogPost.id a) (BlogPost.id p)) as [E|E].
  - assert (Hl : forall q, In q l -> BlogPost.id q <> BlogPost.id p).
    { intros q Hq Hqp. apply Hid_a. rewrite E, <- Hqp.
      apply in_map. exact Hq. }
    rewrite (updated_others p l Hl). constructor; [|exact Htitles'].
    intros Hin. apply in_map_iff in Hin. destruct Hin as (q & Hqt & Hq).
    exact (Hother q (or_intror Hq) (Hl q Hq) Hqt).
  - constructor.
    + intros Hin. apply in_map_iff in Hin. destruct Hin as (q' & Hqt & Hq').
      apply in_map_iff in Hq'. destruct Hq' as (q & <- & Hq).
      unfold updated in Hqt.
      destruct (Z.eqb_spec (BlogPost.id q) (BlogPost.id p)).
      * apply (Hother a (or_introl eq_refl) E). symmetry. exact Hqt.
      * apply Htitle_a. rewrite <- Hqt. apply in_map. exact Hq.
    + apply IH; [exact Hids' | exact Htitles' |].
      intros q Hq. apply Hother. right. exact Hq.
Qed.

Lemma commits_store_ok (s s' : Store) : commits s s' -> store_ok s -> store_ok s'.
Proof.
  intros Hc (Hids & Htitles & Hemails).
  destruct Hc as [s | s email password name u s' H
                  | s author_id title subtitle date body img_url project_url s' H
                  | s p s' H | s text author_id post_id | s f now s' H
                  | s post_id s' H].
  - repeat split; assumption.
  - unfold db_add_user in H.
    destruct (existsb _ (users s)) eqn:Hex; [discriminate|].
    injection H as <- <-. repeat split; simpl; try assumption.
    apply NoDup_map_snoc; [exact Hemails|].
    simpl. apply existsb_eqb_absent. exact Hex.
  - unfold db_add_post in H.
    destruct (existsb _ (blog_posts s)) eqn:Hex; [discriminate|].
    injection H as <-. repeat split; simpl; try assumption.
    + apply NoDup_map_snoc; [exact Hids|].
      intros Hin. exact (next_id_fresh _ _ Hin eq_refl).
    + apply NoDup_map_snoc; [exact Htitles|].
      apply existsb_eqb_absent. exact Hex.
  - unfold db_update_post in H.
    destruct (existsb _ (blog_posts s)) eqn:Hex; [discriminate|].
    injection H as <-. repeat split; simpl; try assumption.
    + rewrite updated_ids. exact Hids.
    + apply (updated_titles p); try assumption.
      intros q Hq Hne Ht.
      assert (Hfalse : existsb
                (fun q => negb (BlogPost.id q =? BlogPost.id p)
                          && String.eqb (BlogPost.title q) (BlogPost.title p))
                (blog_posts s) = true).
      { apply existsb_exists. exists q. split; [exact Hq|].
        apply andb_true_iff. split.
        - apply negb_true_iff, Z.eqb_neq. exact Hne.
        - rewrite Ht. apply String.eqb_refl. }
      congruence.
  - repeat split; assumption.
  - unfold db_add_message in H.
    destruct (ContactForm.name f), (ContactForm.email f),
      (ContactForm.message f); try discriminate.
    injection H as <-. repeat split; assumption.
  - unfold db_delete_post in H.
    destruct (existsb _ (comments s) && _); [discriminate|].
    injection H as <-. repeat split; simpl; try assumption;
      apply NoDup_map_filter; assumption.
Qed.

Create HintDb blog.
#[local] Hint Constructors commits : blog.

Lemma admin_only_commits (f : Handler) (w : World) :
  commits (db w) (db (snd (f w))) ->
  commits (db w) (db (snd (admin_only f w))).
Proof.
  intros Hf. destruct (admin_only_cases f w) as [-> | ->];
    [exact Hf | constructor].
Qed.

(** Every request commits one of the writes of [commits]. *)
Lemma app_commits (r : Route) (w : World) :
  commits (db w) (db (snd (app r w))).
Proof.
  destruct r as [salt req | req | | | | post_id req | today req | post_id req
                 | post_id | | now req | ]; simpl;
    try (unfold logout, get_all_posts, how_it_works, about; simpl;
         constructor).
  - unfold register.
    destruct (validate_on_submit RegisterForm_validate req); [|constructor].
    destruct (select_user_by_email _ _); [constructor|].
    destruct (db_add_user _ _ _ _) as [[u s']|] eqn:Hadd; simpl;
      eauto with blog.
  - unfold login.
    destruct (validate_on_submit LoginForm_validate req); [|constructor].
    destruct (select_user_by_email _ _); [|constructor].
    destruct (negb _); constructor.
  - unfold show_post.
    destruct (get_post _ _); [|constructor].
    destruct (validate_on_submit CommentForm_validate req); [|constructor].
    destruct (current_user w) as [[|user]|];
      [apply commits_nothing | simpl; apply commits_comment
      | apply commits_nothing].
  - apply admin_only_commits. cbv beta zeta.
    destruct (validate_on_submit CreatePostForm_validate req); [|constructor].
    destruct (current_user w) as [[|user]|]; try apply commits_nothing.
    match goal with
    | |- context [match ?add with Some _ => _ | None => _ end] =>
        destruct add eqn:Hadd
    end; simpl; eauto with blog.
  - destruct (edit_post post_id req w) as [resp w'] eqn:Hedit.
    apply edit_post_db in Hedit.
    destruct Hedit as [[_ ->]|(post & editor & _ & _ & _ & _ & Hup & _)];
      simpl; eauto with blog.
  - destruct (delete_post post_id w) as [resp w'] eqn:Hdel.
    apply delete_post_db in Hdel.
    destruct Hdel as [[_ ->]|(_ & _ & Hdb & _)]; simpl; eauto with blog.
  - unfold contact. destruct (method req); [constructor|].
    destruct (db_add_message _ _ _) eqn:Hadd; simpl; eauto with blog.
  - unfold admin_messages. apply admin_only_commits.
    unfold login_required. destruct (current_user w) as [i|]; [|constructor].
    destruct (is_authenticated i); constructor.
Qed.

Lemma reachable_store_ok (s : Store) : reachable s -> store_ok s.
Proof.
  induction 1 as [|s cookie fl r _ IH].
  - repeat split; constructor.
  - eapply commits_store_ok; [|exact IH].
    exact (app_commits r {| db := s; session := cookie; flashes := fl |}).
Qed.

(** C5 as amended. In every reachable store no two posts have the same
    title.  When the administrator submits a validated new-post form whose
    title is that of a stored post, the insert violates the unique
    constraint: the world (the store and the flashed messages) is left as it
    was and the request ends in the server error of the unhandled
    exception. *)
Theorem titles_stay_unique :
  (forall s, reachable s -> NoDup (map BlogPost.title (blog_posts s)))
  /\
  (forall (today : datetime) (req : Request CreatePostForm.t) (w : World)
          (admin : User.t) (existing : BlogPost.t),
     current_user w = Some (LoggedIn admin) -> User.id admin = 1 ->
     validate_on_submit CreatePostForm_validate req = true ->
     In existing (blog_posts (db w)) ->
     BlogPost.title existing = CreatePostForm.title (form req) ->
     add_new_post today req w = (InternalServerError, w)).
Proof.
  split.
  - intros s Hs. apply (reachable_store_ok s Hs).
  - intros today req w admin existing Hcur Hid Hv Hin Htitle.
    unfold add_new_post. rewrite (admin_only_admin _ w admin Hcur Hid).
    rewrite Hv, Hcur. unfold db_add_post. rewrite <- Htitle.
    rewrite (existsb_eqb_present BlogPost.title _ existing Hin).
    reflexivity.
Qed.

(** ** What each route does to the world *)

Lemma find_app_found {A : Type} (f : A -> bool) (l l' : list A) (x : A) :
  find f l = Some x -> find f (l ++ l') = Some x.
Proof.
  induction l as [|a l IH]; simpl; [discriminate|].
  destruct (f a); [trivial | exact IH].
Qed.

Lemma find_app_missing {A : Type} (f : A -> bool) (l l' : list A) :
  find f l = None -> find f (l ++ l') = find f l'.
Proof.
  induction l as [|a l IH]; simpl; [reflexivity|].
  destruct (f a); [discriminate | exact IH].
Qed.

Lemma current_user_stored (w : World) (user : User.t) :
  current_user w = Some (LoggedIn user) ->
  In user (users (db w)) /\ session w = Some (User.id user).
Proof.
  unfold current_user. destruct (session w) as [user_id|]; [|discriminate].
  destruct (get_user (db w) user_id) as [u|] eqn:Hget; [|discriminate].
  intros [= ->]. unfold get_user in Hget. apply find_some in Hget.
  destruct Hget as [Hin Hid]. apply Z.eqb_eq in Hid. subst user_id.
  split; [exact Hin | reflexivity].
Qed.

(** What a request to the register route does to the world. *)
Lemma register_db (salt : string) (req : Request RegisterForm.t) (w : World)
    (r : Response) (w' : World) :
  register salt req w = (r, w') ->
  db w' = db w
  \/ exists new_user,
       db_add_user (db w) (RegisterForm.email (form req))
         (generate_password_hash salt (RegisterForm.password (form req)))
         (RegisterForm.name (form req)) = Some (new_user, db w').
Proof.
  unfold register.
  destruct (validate_on_submit RegisterForm_validate req);
    [|intros [= <- <-]; left; reflexivity].
  destruct (select_user_by_email _ _); [intros [= <- <-]; left; reflexivity|].
  destruct (db_add_user _ _ _ _) as [[new_user s']|] eqn:Hadd;
    intros [= <- <-]; [right; exists new_user; reflexivity | left; reflexivity].
Qed.

(** What a request to the show-post route does to the world. *)
Lemma show_post_db (post_id : Z) (req : Request CommentForm.t) (w : World)
    (r : Response) (w' : World) :
  show_post post_id req w = (r, w') ->
  db w' = db w
  \/ exists post user,
       get_post (db w) post_id = Some post
       /\ current_user w = Some (LoggedIn user)
       /\ db w' = snd (db_add_comment (db w)
                         (CommentForm.comment_text (form req))
                         (User.id user) post_id).
Proof.
  unfold show_post.
  destruct (get_post (db w) post_id) as [post|] eqn:Hget;
    [|intros [= <- <-]; left; reflexivity].
  destruct (get_post_id _ _ _ Hget) as [_ Hid]. rewrite Hid.
  destruct (validate_on_submit CommentForm_validate req);
    [|intros [= <- <-]; left; reflexivity].
  destruct (current_user w) as [[|user]|];
    try (intros [= <- <-]; left; reflexivity).
  simpl. intros [= <- <-]. right. exists post, user. repeat split.
Qed.

(** What a request to the new-post route does to the world. *)
Lemma add_new_post_db (today : datetime) (req : Request CreatePostForm.t)
    (w : World) (r : Response) (w' : World) :
  add_new_post today req w = (r, w') ->
  w' = w
  \/ exists admin,
       current_user w = Some (LoggedIn admin) /\ User.id admin = 1
       /\ validate_on_submit CreatePostForm_validate req = true
       /\ r = redirect url_get_all_posts
       /\ db_add_post (db w) (User.id admin)
            (CreatePostForm.title (form req))
            (CreatePostForm.subtitle (form req))
            (strftime_B_d_Y today)
            (CreatePostForm.body (form req))
            (CreatePostForm.img_url (form req))
            (CreatePostForm.project_url (form req)) = Some (db w')
       /\ session w' = session w /\ flashes w' = flashes w.
Proof.
  unfold add_new_post, admin_only.
  destruct (current_user w) as [[|admin]|] eqn:Hcur;
    try (intros [= <- <-]; left; reflexivity).
  destruct (Z.eqb_spec (User.id admin) 1) as [Hid|Hid]; simpl;
    [|intros [= <- <-]; left; reflexivity].
  destruct (validate_on_submit CreatePostForm_validate req);
    [|intros [= <- <-]; left; reflexivity].
  match goal with
  | |- context [match ?add with Some _ => _ | None => _ end] =>
      destruct add as [s'|] eqn:Hadd
  end; intros [= <- <-]; [|left; reflexivity].
  right. exists admin. repeat split; try assumption.
Qed.

(** What a request to the contact route does to the world. *)
Lemma contact_db (now : datetime) (req : Request ContactForm.t) (w : World)
    (r : Response) (w' : World) :
  contact now req w = (r, w') ->
  w' = w
  \/ (method req = POST
      /\ r = redirect url_contact
      /\ db_add_message (db w) (form req) now = Some (db w')
      /\ session w' = session w
      /\ flashes w' = flashes w ++ [("success", message_sent)]).
Proof.
  unfold contact. destruct (method req) eqn:Hm;
    [intros [= <- <-]; left; reflexivity|].
  destruct (db_add_message _ _ _) as [s'|] eqn:Hadd; intros [= <- <-];
    [right; repeat split | left; reflexivity].
Qed.

(** X12. A request that does not ask its route to act (a GET of a form
    page, a form that the validator rejects, or one of the pages that only
    read) writes nothing: the store and the session are left as they were
    and no message is flashed. *)
Theorem unsubmitted_request_keeps_world (r : Route) (w : World) :
  submitted r = false -> snd (app r w) = w.
Proof.
  destruct r as [salt req | req | | | | post_id req | today req | post_id req
                 | post_id | | now req | ]; simpl; intros Hsub;
    try discriminate; try reflexivity.
  - unfold register. rewrite Hsub. reflexivity.
  - unfold login. rewrite Hsub. reflexivity.
  - unfold show_post. rewrite Hsub.
    destruct (get_post (db w) post_id); reflexivity.
  - destruct (add_new_post today req w) as [resp w'] eqn:Hadd.
    apply add_new_post_db in Hadd.
    destruct Hadd as [->|(admin & _ & _ & Hv & _)]; [reflexivity | congruence].
  - unfold edit_post. rewrite Hsub.
    destruct (get_post (db w) post_id); reflexivity.
  - unfold contact. destruct (method req); [reflexivity | discriminate].
  - unfold admin_messages, admin_only, login_required.
    destruct (current_user w) as [[|user]|]; try reflexivity.
    destruct (negb (User.id user =? 1)); reflexivity.
Qed.

(** ** Sessions *)

(** X2. A session that names a user who is not in the table: [load_user]
    aborts with 404, so the three decorated routes and a validated comment on
    an existing post are answered 404, and the world is left as it was. *)
Theorem stale_session_not_found (w : World) (user_id : Z) (today : datetime)
    (req : Request CreatePostForm.t) (post_id : Z)
    (comment : Request CommentForm.t) :
  session w = Some user_id -> get_user (db w) user_id = None ->
  add_new_post today req w = (abort 404, w)
  /\ delete_post post_id w = (abort 404, w)
  /\ admin_messages w = (abort 404, w)
  /\ (forall post,
        get_post (db w) post_id = Some post ->
        validate_on_submit CommentForm_validate comment = true ->
        show_post post_id comment w = (abort 404, w)).
Proof.
  intros Hsession Hget.
  assert (Hcur : current_user w = None).
  { unfold current_user. rewrite Hsession, Hget. reflexivity. }
  repeat split.
  - unfold add_new_post, admin_only. rewrite Hcur. reflexivity.
  - unfold delete_post, admin_only. rewrite Hcur. reflexivity.
  - unfold admin_messages, admin_only. rewrite Hcur. reflexivity.
  - intros post Hpost Hv. unfold show_post. rewrite Hpost, Hv, Hcur.
    reflexivity.
Qed.



(** ** Users are only added *)

Lemma commits_users (s s' : Store) :
  commits s s' ->
  exists added, users s' = users s ++ added /\ (List.length added <= 1)%nat.
Proof.
  intros Hc.
  destruct Hc as [s | s email password name u s' H
                  | s author_id title subtitle date body img_url project_url s' H
                  | s p s' H | s text author_id post_id | s f now s' H
                  | s post_id s' H].
  - exists []. rewrite app_nil_r. split; [reflexivity | simpl; lia].
  - unfold db_add_user in H. destruct (existsb _ (users s)); [discriminate|].
    injection H as <- <-. eexists [_]. split; [reflexivity | simpl; lia].
  - unfold db_add_post in H. destruct (existsb _ (blog_posts s)); [discriminate|].
    injection H as <-. exists []. rewrite app_nil_r.
    split; [reflexivity | simpl; lia].
  - unfold db_update_post in H.
    destruct (existsb _ (blog_posts s)); [discriminate|].
    injection H as <-. exists []. rewrite app_nil_r.
    split; [reflexivity | simpl; lia].
  - exists []. rewrite app_nil_r. split; [reflexivity | simpl; lia].
  - unfold db_add_message in H.
    destruct (ContactForm.name f), (ContactForm.email f),
      (ContactForm.message f); try discriminate.
    injection H as <-. exists []. rewrite app_nil_r.
    split; [reflexivity | simpl; lia].
  - unfold db_delete_post in H.
    destruct (existsb _ (comments s) && _); [discriminate|].
    injection H as <-. exists []. rewrite app_nil_r.
    split; [reflexivity | simpl; lia].
Qed.

(** X13. No request removes or rewrites a user row: after any request the
    user table is the one before with at most one row appended.  So a user
    that was found by identifier or by email is found again, the same row:
    sessions stay valid, and the row with identifier 1 stays the
    administrator. *)
Theorem users_are_only_added (r : Route) (w : World) :
  (exists added,
     users (db (snd (app r w))) = users (db w) ++ added
     /\ (List.length added <= 1)%nat)
  /\ (forall user_id user,
        get_user (db w) user_id = Some user ->
        get_user (db (snd (app r w))) user_id = Some user)
  /\ (forall email user,
        select_user_by_email (db w) email = Some user ->
        select_user_by_email (db (snd (app r w))) email = Some user).
Proof.
  destruct (commits_users _ _ (app_commits r w)) as (added & Husers & Hlen).
  split; [exists added; split; assumption|]. split.
  - intros user_id user Hget. unfold get_user in *. rewrite Husers.
    apply find_app_found. exact Hget.
  - intros email user Hsel. unfold select_user_by_email in *. rewrite Husers.
    apply find_app_found. exact Hsel.
Qed.

(** ** Registration, then login *)

(** X4. After a registration that created a user, a validated login with
    the same email, from any browser, depends on the password check alone:
    when [check_password_hash] accepts the submitted password against the
    hash stored at registration, the session is bound to the new user;
    otherwise the wrong-password message is flashed and the session is left
    as it was. *)
Theorem register_then_login (salt : string) (req : Request RegisterForm.t)
    (w : World) (attempt : Request LoginForm.t) (cookie : option Z)
    (fl : list (string * string)) :
  validate_on_submit RegisterForm_validate req = true ->
  select_user_by_email (db w) (RegisterForm.email (form req)) = None ->
  validate_on_submit LoginForm_validate attempt = true ->
  LoginForm.email (form attempt) = RegisterForm.email (form req) ->
  exists new_user,
    users (db (snd (register salt req w))) = users (db w) ++ [new_user]
    /\ User.password new_user =
         generate_password_hash salt (RegisterForm.password (form req))
    /\ let w2 := {| db := db (snd (register salt req w));
                    session := cookie; flashes := fl |} in
       login attempt w2 =
         if check_password_hash (User.password new_user)
              (LoginForm.password (form attempt))
         then (redirect url_get_all_posts, login_user new_user w2)
         else (redirect url_login, flash password_incorrect w2).
Proof.
  intros Hv Hnone Hv2 Hemail.
  pose proof (register_new_email salt req w Hv Hnone) as Hreg.
  cbv zeta in Hreg. rewrite Hreg. simpl.
  eexists. split; [reflexivity|]. split; [reflexivity|].
  unfold login. rewrite Hv2, Hemail. unfold select_user_by_email in *.
  simpl. rewrite (find_app_missing _ _ _ Hnone). simpl.
  rewrite String.eqb_refl.
  destruct (check_password_hash _ _); reflexivity.
Qed.

(** ** Who is the administrator *)

(** X5. The first user ever registered gets identifier 1: a validated
    registration into an empty user table binds the session to user 1, and
    that session passes the admin gate. *)
Theorem first_registered_user_is_admin (salt : string)
    (req : Request RegisterForm.t) (w : World) :
  validate_on_submit RegisterForm_validate req = true ->
  users (db w) = [] ->
  fst (register salt req w) = redirect url_get_all_posts
  /\ session (snd (register salt req w)) = Some 1
  /\ forall f : Handler,
       admin_only f (snd (register salt req w)) = f (snd (register salt req w)).
Proof.
  intros Hv Hempty.
  assert (Hnone : select_user_by_email (db w) (RegisterForm.email (form req))
                  = None).
  { unfold select_user_by_email. rewrite Hempty. reflexivity. }
  pose proof (register_new_email salt req w Hv Hnone) as Hreg.
  cbv zeta in Hreg. rewrite Hreg, Hempty. simpl.
  split; [reflexivity|]. split; [reflexivity|].
  intros f. unfold admin_only, current_user, get_user. simpl. reflexivity.
Qed.

Lemma next_id_above (ids : list Z) (x : Z) : In x ids -> x < next_id ids.
Proof.
  intros Hx. pose proof (fold_max_upper ids x Hx). unfold next_id. lia.
Qed.

(** X6. Once a user with a positive identifier is stored, a registration
    that creates a user gives it a larger identifier, never 1: the session it
    opens is answered 403 by the admin gate. *)
Theorem later_registered_user_is_not_admin (salt : string)
    (req : Request RegisterForm.t) (w : World) (earlier : User.t) :
  validate_on_submit RegisterForm_validate req = true ->
  select_user_by_email (db w) (RegisterForm.email (form req)) = None ->
  In earlier (users (db w)) -> 1 <= User.id earlier ->
  exists new_user,
    current_user (snd (register salt req w)) = Some (LoggedIn new_user)
    /\ 1 < User.id new_user
    /\ forall f : Handler,
         admin_only f (snd (register salt req w))
         = (abort 403, snd (register salt req w)).
Proof.
  intros Hv Hnone Hin Hpos.
  pose proof (register_new_email salt req w Hv Hnone) as Hreg.
  cbv zeta in Hreg. rewrite Hreg. simpl.
  set (new_user := {| User.id := next_id (map User.id (users (db w)));
                      User.email := RegisterForm.email (form req);
                      User.password :=
                        generate_password_hash salt
                          (RegisterForm.password (form req));
                      User.name := RegisterForm.name (form req) |}).
  assert (Hcur : forall fl,
            current_user
              {| db := {| blog_posts := blog_posts (db w);
                          users := users (db w) ++ [new_user];
                          comments := comments (db w);
                          messages := messages (db w) |};
                 session := Some (User.id new_user);
                 flashes := fl |} = Some (LoggedIn new_user)).
  { intros fl. unfold current_user, get_user. simpl.
    rewrite find_fresh_row; [reflexivity | | reflexivity].
    intros x Hx. apply next_id_fresh. apply (in_map User.id). exact Hx. }
  assert (Habove : 1 < User.id new_user).
  { pose proof (next_id_above _ _ (in_map User.id _ _ Hin)). simpl. lia. }
  exists new_user. split; [apply Hcur|]. split; [exact Habove|].
  intros f. apply (admin_only_forbidden f _ (LoggedIn new_user) (Hcur _)).
  intros user [= <-]. lia.
Qed.

(** ** The contact page *)


(** X8. A message sent through the contact page is in the list the
    administrator is shown afterwards, together with every message that was
    stored before. *)
Theorem contact_message_is_listed (now : datetime)
    (req : Request ContactForm.t) (w : World) (name email message_text : string)
    (w2 : World) (admin : User.t) :
  method req = POST ->
  ContactForm.name (form req) = Some name ->
  ContactForm.email (form req) = Some email ->
  ContactForm.message (form req) = Some message_text ->
  db w2 = db (snd (contact now req w)) ->
  current_user w2 = Some (LoggedIn admin) -> User.id admin = 1 ->
  exists listed m,
    admin_messages w2
    = (render_template "admin_messages.html" (messages_args listed), w2)
    /\ In m listed
    /\ Message.name m = name
    /\ Message.email m = email
    /\ Message.message m = message_text
    /\ Message.date m = now
    /\ (forall earlier, In earlier (messages (db w)) -> In earlier listed).
Proof.
  intros Hpost Hname Hemail Hmsg Hdb Hcur Hid.
  assert (Hlist : admin_messages w2 =
            (render_template "admin_messages.html"
               (messages_args (order_by_date_desc (messages (db w2)))), w2)).
  { unfold admin_messages. rewrite (admin_only_admin _ w2 admin Hcur Hid).
    unfold login_required. rewrite Hcur. reflexivity. }
  pose proof (order_by_date_desc_Permutation (messages (db w2))) as Hperm.
  set (listed := order_by_date_desc (messages (db w2))) in *.
  assert (Hmessages : messages (db w2) =
            messages (db w) ++
            [Message.mk (next_id (map Message.id (messages (db w)))) name
               email (ContactForm.phone (form req)) message_text now]).
  { rewrite Hdb. unfold contact, db_add_message.
    rewrite Hpost, Hname, Hemail, Hmsg. reflexivity. }
  rewrite Hmessages in Hperm. eexists listed, _.
  split; [exact Hlist|]. split.
  - apply (Permutation_in _ (Permutation_sym Hperm)).
    apply in_or_app. right. left. reflexivity.
  - repeat split.
    intros earlier Hin. apply (Permutation_in _ (Permutation_sym Hperm)).
    apply in_or_app. left. exact Hin.
Qed.

(** ** Writing posts *)

Lemma existsb_eqb_fresh {A : Type} (f : A -> string) (t : string)
    (l : list A) :
  (forall a, In a l -> f a <> t) ->
  existsb (fun q => String.eqb (f q) t) l = false.
Proof.
  induction l as [|a l IH]; simpl; intros Hall; [reflexivity|].
  apply orb_false_iff. split.
  - apply String.eqb_neq. apply Hall. left. reflexivity.
  - apply IH. intros b Hb. apply Hall. right. exact Hb.
Qed.

Lemma find_fresh_post (l : list BlogPost.t) (p : BlogPost.t) :
  BlogPost.id p = next_id (map BlogPost.id l) ->
  find (fun q => BlogPost.id q =? BlogPost.id p) (l ++ [p]) = Some p.
Proof.
  intros Hid. rewrite find_app_missing.
  - simpl. rewrite Z.eqb_refl. reflexivity.
  - apply find_absent. intros q Hq. apply Z.eqb_neq. rewrite Hid.
    apply next_id_fresh. apply (in_map BlogPost.id). exact Hq.
Qed.

(** X9. The administrator's validated new-post form with a title that no
    stored post has: exactly one post is appended, with the submitted title,
    subtitle, body, image URL and project URL, the administrator as author
    and the day of the request, formatted, as date.  Its fresh identifier
    finds it again, the home page lists it last, and the other tables and
    the session are left as they were. *)
Theorem add_new_post_creates (today : datetime)
    (req : Request CreatePostForm.t) (w : World) (admin : User.t) :
  current_user w = Some (LoggedIn admin) -> User.id admin = 1 ->
  validate_on_submit CreatePostForm_validate req = true ->
  (forall p, In p (blog_posts (db w)) ->
             BlogPost.title p <> CreatePostForm.title (form req)) ->
  exists new_post,
    fst (add_new_post today req w) = redirect url_get_all_posts
    /\ blog_posts (db (snd (add_new_post today req w)))
       = blog_posts (db w) ++ [new_post]
    /\ new_post =
         {| BlogPost.id := next_id (map BlogPost.id (blog_posts (db w)));
            BlogPost.author_id := 1;
            BlogPost.title := CreatePostForm.title (form req);
            BlogPost.subtitle := CreatePostForm.subtitle (form req);
            BlogPost.date := strftime_B_d_Y today;
            BlogPost.body := CreatePostForm.body (form req);
            BlogPost.img_url := CreatePostForm.img_url (form req);
            BlogPost.project_url := CreatePostForm.project_url (form req) |}
    /\ get_post (db (snd (add_new_post today req w))) (BlogPost.id new_post)
       = Some new_post
    /\ fst (get_all_posts (snd (add_new_post today req w)))
       = render_template "index.html" (all_posts (blog_posts (db w) ++ [new_post]))
    /\ users (db (snd (add_new_post today req w))) = users (db w)
    /\ comments (db (snd (add_new_post today req w))) = comments (db w)
    /\ messages (db (snd (add_new_post today req w))) = messages (db w)
    /\ session (snd (add_new_post today req w)) = session w
    /\ flashes (snd (add_new_post today req w)) = flashes w.
Proof.
  intros Hcur Hid Hv Hfresh.
  unfold add_new_post. rewrite (admin_only_admin _ w admin Hcur Hid).
  rewrite Hv, Hcur. unfold db_add_post.
  rewrite (existsb_eqb_fresh BlogPost.title _ _ Hfresh), Hid. simpl.
  eexists. split; [reflexivity|]. split; [reflexivity|].
  split; [reflexivity|]. split.
  - unfold get_post. simpl.
    match goal with
    | |- find _ (_ ++ [?p]) = _ => exact (find_fresh_post _ p eq_refl)
    end.
  - repeat split.
Qed.

(** X10. A validated edit that gives a post the title of another stored
    post violates the unique constraint: the request ends in the server
    error and the world is left as it was. *)
Theorem edit_post_duplicate_title (post_id : Z)
    (req : Request CreatePostForm.t) (w : World) (post other : BlogPost.t)
    (editor : User.t) :
  get_post (db w) post_id = Some post ->
  validate_on_submit CreatePostForm_validate req = true ->
  current_user w = Some (LoggedIn editor) ->
  In other (blog_posts (db w)) ->
  BlogPost.id other <> post_id ->
  BlogPost.title other = CreatePostForm.title (form req) ->
  edit_post post_id req w = (InternalServerError, w).
Proof.
  intros Hget Hv Hcur Hin Hother Htitle.
  destruct (get_post_id _ _ _ Hget) as [_ Hid].
  unfold edit_post. rewrite Hget, Hv, Hcur. unfold db_update_post.
  match goal with
  | |- context [existsb ?f ?l] =>
      assert (Hex : existsb f l = true)
  end.
  { apply existsb_exists. exists other. split; [exact Hin|]. simpl.
    apply andb_true_iff. split.
    - apply negb_true_iff, Z.eqb_neq. rewrite Hid. exact Hother.
    - rewrite Htitle. apply String.eqb_refl. }
  rewrite Hex. reflexivity.
Qed.

(** X11. An edit that succeeded touches one post only: the posts with
    another identifier are the rows they were, in the same places, and
    users, comments, messages, the session and the flashed messages are left
    as they were. *)
Theorem edit_post_frame (post_id : Z) (req : Request CreatePostForm.t)
    (w : World) (target : Endpoint) (w' : World) :
  edit_post post_id req w = (redirect target, w') ->
  users (db w') = users (db w)
  /\ comments (db w') = comments (db w)
  /\ messages (db w') = messages (db w)
  /\ session w' = session w
  /\ flashes w' = flashes w
  /\ map BlogPost.id (blog_posts (db w')) = map BlogPost.id (blog_posts (db w))
  /\ (forall (i : nat) (q : BlogPost.t),
        nth_error (blog_posts (db w)) i = Some q -> BlogPost.id q <> post_id ->
        nth_error (blog_posts (db w')) i = Some q).
Proof.
  intros Hedit. apply edit_post_db in Hedit.
  destruct Hedit as [[Hne _]|(post & editor & _ & _ & _ & _ & Hup & Hs & Hf)].
  - exfalso. exact (Hne target eq_refl).
  - unfold db_update_post in Hup.
    match type of Hup with
    | (if ?c then _ else _) = _ => destruct c; [discriminate|]
    end.
    injection Hup as Hup. rewrite <- Hup. simpl.
    repeat split; try assumption.
    + apply updated_ids.
    + intros i q Hnth Hne. rewrite nth_error_map, Hnth. simpl.
      unfold updated. simpl.
      destruct (Z.eqb_spec (BlogPost.id q) post_id); [contradiction|reflexivity].
Qed.

(** X14. The administrator's delete of a stored post that no comment
    references succeeds: exactly the posts with that identifier go, and the
    comment table, users, messages, the session and the flashed messages are
    left as they were. *)
Theorem delete_post_without_comments (post_id : Z) (w : World)
    (admin : User.t) (post : BlogPost.t) :
  current_user w = Some (LoggedIn admin) -> User.id admin = 1 ->
  get_post (db w) post_id = Some post ->
  (forall c, In c (comments (db w)) -> Comment.post_id c <> Some post_id) ->
  fst (delete_post post_id w) = redirect url_get_all_posts
  /\ blog_posts (db (snd (delete_post post_id w)))
     = filter (fun p => negb (BlogPost.id p =? post_id)) (blog_posts (db w))
  /\ comments (db (snd (delete_post post_id w))) = comments (db w)
  /\ users (db (snd (delete_post post_id w))) = users (db w)
  /\ messages (db (snd (delete_post post_id w))) = messages (db w)
  /\ session (snd (delete_post post_id w)) = session w
  /\ flashes (snd (delete_post post_id w)) = flashes w.
Proof.
  intros Hcur Hid Hget Hnone.
  destruct (get_post_id _ _ _ Hget) as [_ Hpid].
  assert (Href : forall c, In c (comments (db w)) -> references post_id c = false).
  { intros c Hc. specialize (Hnone c Hc). unfold references.
    destruct (Comment.post_id c) as [p|]; [|reflexivity].
    apply Z.eqb_neq. congruence. }
  assert (Hex : existsb (references post_id) (comments (db w)) = false).
  { apply not_true_is_false. intros Hex. apply existsb_exists in Hex.
    destruct Hex as (c & Hc & Hr). rewrite (Href c Hc) in Hr. discriminate. }
  assert (Hmap : map (orphan post_id) (comments (db w)) = comments (db w)).
  { rewrite <- (map_id (comments (db w))) at 2. apply map_ext_in.
    intros c Hc. unfold orphan. rewrite (Href c Hc). reflexivity. }
  unfold delete_post. rewrite (admin_only_admin _ w admin Hcur Hid).
  rewrite Hget, Hpid. unfold db_delete_post. rewrite Hex. simpl.
  rewrite Hmap. repeat split.
Qed.

(** X18. The administrator's delete of a stored post that a comment
    references.  The relationship has no delete cascade, so the comment is
    detached by NULL in its [post_id]: where the column refuses NULL the
    request ends in the server error and the world is left as it was (the
    post stays); where it accepts NULL the post goes and the comment stays,
    without a parent. *)
Theorem delete_post_with_comments (post_id : Z) (w : World) (admin : User.t)
    (post : BlogPost.t) (c : Comment.t) :
  current_user w = Some (LoggedIn admin) -> User.id admin = 1 ->
  get_post (db w) post_id = Some post ->
  In c (comments (db w)) -> Comment.post_id c = Some post_id ->
  if comments_post_id_nullable
  then fst (delete_post post_id w) = redirect url_get_all_posts
       /\ get_post (db (snd (delete_post post_id w))) post_id = None
       /\ comments (db (snd (delete_post post_id w)))
          = map (orphan post_id) (comments (db w))
       /\ In (Comment.mk (Comment.id c) (Comment.text c) (Comment.author_id c)
                None)
            (comments (db (snd (delete_post post_id w))))
  else delete_post post_id w = (InternalServerError, w).
Proof.
  intros Hcur Hid Hget Hin Hparent.
  destruct (get_post_id _ _ _ Hget) as [_ Hpid].
  assert (Href : references post_id c = true).
  { unfold references. rewrite Hparent. apply Z.eqb_refl. }
  assert (Hex : existsb (references post_id) (comments (db w)) = true).
  { apply existsb_exists. exists c. split; assumption. }
  unfold delete_post. rewrite (admin_only_admin _ w admin Hcur Hid).
  rewrite Hget, Hpid. unfold db_delete_post. rewrite Hex.
  destruct comments_post_id_nullable; simpl; [|reflexivity].
  split; [reflexivity|]. split; [|split; [reflexivity|]].
  - unfold get_post. simpl. apply find_absent.
    intros p Hp. apply filter_In in Hp. destruct Hp as [_ Hp].
    apply negb_true_iff in Hp. exact Hp.
  - apply in_map_iff. exists c. split; [|exact Hin].
    unfold orphan. rewrite Href. reflexivity.
Qed.

(** ** Keys and references in every reachable store *)

Lemma next_id_positive (ids : list Z) : 1 <= next_id ids.
Proof.
  unfold next_id. induction ids as [|a l IH]; cbn [fold_right]; lia.
Qed.

Lemma orphan_ids (post_id : Z) (l : list Comment.t) :
  map Comment.id (map (orphan post_id) l) = map Comment.id l.
Proof.
  rewrite map_map. apply map_ext. intros c. apply orphan_keeps.
Qed.

Lemma commits_keys_ok (s s' : Store) : commits s s' -> keys_ok s -> keys_ok s'.
Proof.
  intros Hc (Husers & Hcomments & Hmessages & Hpos).
  destruct Hc as [s | s email password name u s' H
                  | s author_id title subtitle date body img_url project_url s' H
                  | s p s' H | s text author_id post_id | s f now s' H
                  | s post_id s' H].
  - repeat split; assumption.
  - unfold db_add_user in H. destruct (existsb _ (users s)); [discriminate|].
    injection H as <- <-. repeat split; simpl; try assumption.
    + apply NoDup_map_snoc; [exact Husers|].
      intros Hin. exact (next_id_fresh _ _ Hin eq_refl).
    + intros u Hu. apply in_app_or in Hu. destruct Hu as [Hu|[<-|[]]].
      * exact (Hpos u Hu).
      * apply next_id_positive.
  - unfold db_add_post in H. destruct (existsb _ (blog_posts s)); [discriminate|].
    injection H as <-. repeat split; assumption.
  - unfold db_update_post in H.
    destruct (existsb _ (blog_posts s)); [discriminate|].
    injection H as <-. repeat split; assumption.
  - repeat split; simpl; try assumption.
    apply NoDup_map_snoc; [exact Hcomments|].
    intros Hin. exact (next_id_fresh _ _ Hin eq_refl).
  - unfold db_add_message in H.
    destruct (ContactForm.name f), (ContactForm.email f),
      (ContactForm.message f); try discriminate.
    injection H as <-. repeat split; simpl; try assumption.
    apply NoDup_map_snoc; [exact Hmessages|].
    intros Hin. exact (next_id_fresh _ _ Hin eq_refl).
  - unfold db_delete_post in H.
    destruct (existsb _ (comments s) && _); [discriminate|].
    injection H as <-. repeat split; simpl; try assumption.
    rewrite orphan_ids. exact Hcomments.
Qed.

Lemma reachable_keys_ok (s : Store) : reachable s -> keys_ok s.
Proof.
  induction 1 as [|s cookie fl r _ IH].
  - repeat split; try constructor. intros u [].
  - eapply commits_keys_ok; [|exact IH].
    exact (app_commits r {| db := s; session := cookie; flashes := fl |}).
Qed.

(** X15. In every reachable store the primary keys of the four tables hold
    no value twice, no two users have the same email, and every user
    identifier is at least 1. *)
Theorem reachable_keys_unique (s : Store) :
  reachable s ->
  NoDup (map User.id (users s))
  /\ NoDup (map User.email (users s))
  /\ NoDup (map BlogPost.id (blog_posts s))
  /\ NoDup (map Comment.id (comments s))
  /\ NoDup (map Message.id (messages s))
  /\ (forall u, In u (users s) -> 1 <= User.id u).
Proof.
  intros Hs.
  destruct (reachable_keys_ok s Hs) as (Husers & Hcomments & Hmessages & Hpos).
  destruct (reachable_store_ok s Hs) as (Hposts & _ & Hemails).
  repeat split; assumption.
Qed.

Lemma add_user_references_ok (s : Store) (email password name : string)
    (u : User.t) (s' : Store) :
  db_add_user s email password name = Some (u, s') ->
  references_ok s -> references_ok s'.
Proof.
  unfold db_add_user. destruct (existsb _ (users s)); [discriminate|].
  intros [= <- <-] (Hposts & Hauthors & Hparents).
  repeat split; simpl; try assumption.
  - intros p Hp. rewrite map_app. apply in_or_app. left. exact (Hposts p Hp).
  - intros c Hc. rewrite map_app. apply in_or_app. left. exact (Hauthors c Hc).
Qed.

Lemma add_comment_references_ok (s : Store) (text : string)
    (author_id post_id : Z) :
  In author_id (map User.id (users s)) ->
  In post_id (map BlogPost.id (blog_posts s)) ->
  references_ok s ->
  references_ok (snd (db_add_comment s text author_id post_id)).
Proof.
  intros Hauthor Hpost (Hposts & Hauthors & Hparents).
  repeat split; simpl; try assumption.
  - intros c Hc. apply in_app_or in Hc. destruct Hc as [Hc|[<-|[]]].
    + exact (Hauthors c Hc).
    + exact Hauthor.
  - intros c p Hc Hp. apply in_app_or in Hc. destruct Hc as [Hc|[<-|[]]].
    + exact (Hparents c p Hc Hp).
    + simpl in Hp. injection Hp as <-. exact Hpost.
Qed.

Lemma add_post_references_ok (s : Store) (author_id : Z)
    (title subtitle date body img_url : string) (project_url : option string)
    (s' : Store) :
  In author_id (map User.id (users s)) ->
  db_add_post s author_id title subtitle date body img_url project_url
    = Some s' ->
  references_ok s -> references_ok s'.
Proof.
  intros Hauthor. unfold db_add_post.
  destruct (existsb _ (blog_posts s)); [discriminate|].
  intros [= <-] (Hposts & Hauthors & Hparents).
  repeat split; simpl; try assumption.
  - intros p Hp. apply in_app_or in Hp. destruct Hp as [Hp|[<-|[]]].
    + exact (Hposts p Hp).
    + exact Hauthor.
  - intros c p Hc Hp. rewrite map_app. apply in_or_app. left.
    exact (Hparents c p Hc Hp).
Qed.

Lemma update_post_references_ok (s : Store) (p : BlogPost.t) (s' : Store) :
  In (BlogPost.author_id p) (map User.id (users s)) ->
  db_update_post s p = Some s' ->
  references_ok s -> references_ok s'.
Proof.
  intros Hauthor. unfold db_update_post.
  destruct (existsb _ (blog_posts s)); [discriminate|].
  intros [= <-] (Hposts & Hauthors & Hparents).
  repeat split; simpl; try assumption.
  - intros q' Hq'. apply in_map_iff in Hq'. destruct Hq' as (q & <- & Hq).
    unfold updated. destruct (BlogPost.id q =? BlogPost.id p);
      [exact Hauthor | exact (Hposts q Hq)].
  - intros c post_id Hc Hp. rewrite updated_ids. exact (Hparents c post_id Hc Hp).
Qed.

Lemma delete_post_references_ok (s : Store) (post_id : Z) (s' : Store) :
  db_delete_post s post_id = Some s' ->
  references_ok s -> references_ok s'.
Proof.
  unfold db_delete_post.
  destruct (existsb _ (comments s) && _); [discriminate|].
  intros [= <-] (Hposts & Hauthors & Hparents).
  repeat split; simpl.
  - intros p Hp. apply filter_In in Hp. exact (Hposts p (proj1 Hp)).
  - intros c' Hc'. apply in_map_iff in Hc'. destruct Hc' as (c & <- & Hc).
    destruct (orphan_keeps post_id c) as (_ & _ & ->). exact (Hauthors c Hc).
  - intros c' parent Hc' Hp. apply in_map_iff in Hc'.
    destruct Hc' as (c & <- & Hc). unfold orphan in Hp.
    destruct (references post_id c) eqn:Href; [discriminate Hp|].
    pose proof (Hparents c parent Hc Hp) as Hin.
    apply in_map_iff in Hin. destruct Hin as (q & Hq & Hqin).
    apply in_map_iff. exists q. split; [exact Hq|].
    apply filter_In. split; [exact Hqin|].
    apply negb_true_iff, Z.eqb_neq. rewrite Hq.
    unfold references in Href. rewrite Hp in Href.
    apply Z.eqb_neq. exact Href.
Qed.

Lemma add_message_references_ok (s : Store) (f : ContactForm.t)
    (now : datetime) (s' : Store) :
  db_add_message s f now = Some s' -> references_ok s -> references_ok s'.
Proof.
  unfold db_add_message.
  destruct (ContactForm.name f), (ContactForm.email f),
    (ContactForm.message f); try discriminate.
  intros [= <-] Hok. exact Hok.
Qed.

Lemma current_user_id_stored (w : World) (user : User.t) :
  current_user w = Some (LoggedIn user) ->
  In (User.id user) (map User.id (users (db w))).
Proof.
  intros Hcur. apply in_map. exact (proj1 (current_user_stored w user Hcur)).
Qed.

(** Every request keeps the foreign keys on stored rows. *)
Lemma app_references_ok (r : Route) (w : World) :
  references_ok (db w) -> references_ok (db (snd (app r w))).
Proof.
  intros Hok.
  destruct r as [salt req | req | | | | post_id req | today req | post_id req
                 | post_id | | now req | ]; simpl; try exact Hok.
  - destruct (register salt req w) as [resp w'] eqn:Hreg.
    apply register_db in Hreg. simpl.
    destruct Hreg as [->|(new_user & Hadd)]; [exact Hok|].
    exact (add_user_references_ok _ _ _ _ _ _ Hadd Hok).
  - unfold login.
    destruct (validate_on_submit LoginForm_validate req); [|exact Hok].
    destruct (select_user_by_email _ _); [|exact Hok].
    destruct (negb _); exact Hok.
  - destruct (show_post post_id req w) as [resp w'] eqn:Hshow.
    apply show_post_db in Hshow. simpl.
    destruct Hshow as [->|(post & user & Hget & Hcur & ->)]; [exact Hok|].
    apply add_comment_references_ok; [| |exact Hok].
    + exact (current_user_id_stored w user Hcur).
    + destruct (get_post_id _ _ _ Hget) as [Hin <-].
      apply in_map. exact Hin.
  - destruct (add_new_post today req w) as [resp w'] eqn:Hadd.
    apply add_new_post_db in Hadd. simpl.
    destruct Hadd as [->|(admin & Hcur & _ & _ & _ & Hadd & _)]; [exact Hok|].
    exact (add_post_references_ok _ _ _ _ _ _ _ _ _
             (current_user_id_stored w admin Hcur) Hadd Hok).
  - destruct (edit_post post_id req w) as [resp w'] eqn:Hedit.
    apply edit_post_db in Hedit. simpl.
    destruct Hedit as [[_ ->]|(post & editor & _ & _ & Hcur & _ & Hup & _)];
      [exact Hok|].
    refine (update_post_references_ok _ _ _ _ Hup Hok).
    exact (current_user_id_stored w editor Hcur).
  - destruct (delete_post post_id w) as [resp w'] eqn:Hdel.
    apply delete_post_db in Hdel. simpl.
    destruct Hdel as [[_ ->]|(_ & _ & Hdb & _)]; [exact Hok|].
    exact (delete_post_references_ok _ _ _ Hdb Hok).
  - destruct (contact now req w) as [resp w'] eqn:Hcontact.
    apply contact_db in Hcontact. simpl.
    destruct Hcontact as [->|(_ & _ & Hadd & _)]; [exact Hok|].
    exact (add_message_references_ok _ _ _ _ Hadd Hok).
  - unfold admin_messages, admin_only, login_required.
    destruct (current_user w) as [[|user]|]; try exact Hok.
    destruct (negb (User.id user =? 1)); exact Hok.
Qed.

Lemma reachable_references (s : Store) : reachable s -> references_ok s.
Proof.
  induction 1 as [|s cookie fl r _ IH].
  - repeat split; simpl; intros; contradiction.
  - exact (app_references_ok r {| db := s; session := cookie; flashes := fl |}
             IH).
Qed.

(** X17. In every reachable store the foreign keys name stored rows: the
    author of every post and of every comment is a stored user, and the
    parent of every comment that has one is a stored post.  Requests with a
    forged session cookie are among the steps. *)
Theorem reachable_references_ok (s : Store) :
  reachable s ->
  (forall p, In p (blog_posts s) ->
     exists author, In author (users s) /\ User.id author = BlogPost.author_id p)
  /\ (forall c, In c (comments s) ->
        exists author, In author (users s) /\ User.id author = Comment.author_id c)
  /\ (forall c post_id, In c (comments s) -> Comment.post_id c = Some post_id ->
        exists post, In post (blog_posts s) /\ BlogPost.id post = post_id).
Proof.
  intros Hs.
  destruct (reachable_references s Hs) as (Hposts & Hauthors & Hparents).
  repeat split.
  - intros p Hp. specialize (Hposts p Hp). apply in_map_iff in Hposts.
    destruct Hposts as (u & Hu & Hin). exists u. split; assumption.
  - intros c Hc. specialize (Hauthors c Hc). apply in_map_iff in Hauthors.
    destruct Hauthors as (u & Hu & Hin). exists u. split; assumption.
  - intros c post_id Hc Hp. specialize (Hparents c post_id Hc Hp).
    apply in_map_iff in Hparents. destruct Hparents as (q & Hq & Hin).
    exists q. split; assumption.
Qed.

(** ** Round trips *)


Lemma filter_none {A : Type} (f : A -> bool) (l : list A) :
  (forall x, In x l -> f x = false) -> filter f l = [].
Proof.
  induction l as [|a l IH]; simpl; intros Hall; [reflexivity|].
  rewrite (Hall a (or_introl eq_refl)). apply IH.
  intros x Hx. apply Hall. right. exact Hx.
Qed.

Lemma find_by_unique_id (l : list User.t) (u : User.t) :
  NoDup (map User.id l) -> In u l ->
  find (fun x => User.id x =? User.id u) l = Some u.
Proof.
  induction l as [|a l IH]; simpl; intros Hnd Hin; [contradiction|].
  inversion Hnd as [|? ? Hnotin Hnd']; subst.
  destruct Hin as [->|Hin].
  - rewrite Z.eqb_refl. reflexivity.
  - destruct (Z.eqb_spec (User.id a) (User.id u)) as [E|_].
    + exfalso. apply Hnotin. rewrite E. apply in_map. exact Hin.
    + exact (IH Hnd' Hin).
Qed.

(** X20. Where user identifiers are unique, as in every reachable store, a
    login that succeeded opens a session that resolves to the very user
    whose email and password were submitted, and that session passes the
    admin gate exactly when the identifier of that user is 1. *)
Theorem login_then_current_user (req : Request LoginForm.t) (w : World)
    (user : User.t) :
  NoDup (map User.id (users (db w))) ->
  validate_on_submit LoginForm_validate req = true ->
  select_user_by_email (db w) (LoginForm.email (form req)) = Some user ->
  check_password_hash (User.password user) (LoginForm.password (form req))
    = true ->
  current_user (snd (login req w)) = Some (LoggedIn user)
  /\ forall f : Handler,
       admin_only f (snd (login req w))
       = if User.id user =? 1 then f (snd (login req w))
         else (abort 403, snd (login req w)).
Proof.
  intros Hnd Hv Hsel Hcheck.
  assert (Hin : In user (users (db w))).
  { unfold select_user_by_email in Hsel. apply find_some in Hsel.
    exact (proj1 Hsel). }
  assert (Hcur : current_user (snd (login req w)) = Some (LoggedIn user)).
  { unfold login. rewrite Hv, Hsel, Hcheck. simpl.
    unfold current_user, get_user. simpl.
    rewrite (find_by_unique_id _ _ Hnd Hin). reflexivity. }
  split; [exact Hcur|].
  intros f. unfold admin_only. rewrite Hcur.
  destruct (User.id user =? 1); reflexivity.
Qed.

(** X21. In a reachable store a newly created post starts without comments,
    also when a deleted post had carried its identifier before: no stored
    comment references the identifier the new post gets. *)
Theorem new_post_has_no_comments (today : datetime)
    (req : Request CreatePostForm.t) (w : World) (admin : User.t) :
  reachable (db w) ->
  current_user w = Some (LoggedIn admin) -> User.id admin = 1 ->
  validate_on_submit CreatePostForm_validate req = true ->
  (forall p, In p (blog_posts (db w)) ->
             BlogPost.title p <> CreatePostForm.title (form req)) ->
  exists new_post,
    blog_posts (db (snd (add_new_post today req w)))
    = blog_posts (db w) ++ [new_post]
    /\ post_comments (db (snd (add_new_post today req w)))
         (BlogPost.id new_post) = []
    /\ forall comment : Request CommentForm.t,
         validate_on_submit CommentForm_validate comment = false ->
         fst (show_post (BlogPost.id new_post) comment
                (snd (add_new_post today req w)))
         = render_template "post.html" (post_args new_post []).
Proof.
  intros Hreach Hcur Hid Hv Hfresh.
  destruct (reachable_references _ Hreach) as (_ & _ & Hparents).
  unfold add_new_post. rewrite (admin_only_admin _ w admin Hcur Hid).
  rewrite Hv, Hcur. unfold db_add_post.
  rewrite (existsb_eqb_fresh BlogPost.title _ _ Hfresh). simpl.
  assert (Hnone : filter (references (next_id (map BlogPost.id (blog_posts (db w)))))
                    (comments (db w)) = []).
  { apply filter_none. intros c Hc. unfold references.
    destruct (Comment.post_id c) as [p|] eqn:Hp; [|reflexivity].
    apply Z.eqb_neq. apply next_id_fresh. exact (Hparents c p Hc Hp). }
  eexists. split; [reflexivity|]. split.
  - unfold post_comments. simpl. exact Hnone.
  - intros comment Hview. unfold show_post, get_post. simpl.
    match goal with
    | |- context [find _ (_ ++ [?p])] =>
        pose proof (find_fresh_post (blog_posts (db w)) p eq_refl) as Hfind
    end.
    simpl in Hfind. rewrite Hfind.
    rewrite Hview. unfold post_comments. simpl. rewrite Hnone. reflexivity.
Qed.

End Routes.

(** ** Examples on the small blog *)

(** C1. The edit route is not behind the admin gate.  Alice, whose user
    identifier is 2, is answered 403 by the new-post, delete and
    message-list routes, which leave the world as it was; her validated
    edit of post 1 is answered with the redirect to the post, and the
    stored post then carries her title and her as its author. *)
Theorem edit_post_open_to_non_admin :
  current_user as_alice = Some (LoggedIn sample_alice)
  /\ add_new_post accept spring_day (post_form "T9" None) as_alice
     = (abort 403, as_alice)
  /\ delete_post false 1 as_alice = (abort 403, as_alice)
  /\ admin_messages as_alice = (abort 403, as_alice)
  /\ fst (edit_post accept 1 (post_form "T9" None) as_alice)
     = redirect (url_show_post 1)
  /\ get_post (db (snd (edit_post accept 1 (post_form "T9" None) as_alice))) 1
     = Some (BlogPost.mk 1 2 "T9" "a subtitle" "January 01, 2020" "a body"
               "new.png" (Some "http://old.example"))
  /\ get_post (db as_alice) 1 = Some sample_post1.
Proof. repeat split. Qed.

Lemma register_never_duplicates_witness :
  validate_on_submit accept (register_form "bob@x.com") = true
  /\ select_user_by_email (db as_anonymous) "bob@x.com" = None
  /\ (exists new_user,
        fst (register toy_hash accept "salt" (register_form "bob@x.com")
               as_anonymous) = redirect url_get_all_posts
        /\ users (db (snd (register toy_hash accept "salt"
                             (register_form "bob@x.com") as_anonymous)))
           = [sample_admin; sample_alice; new_user]
        /\ User.email new_user = "bob@x.com"
        /\ User.password new_user = "toy$pw"
        /\ session (snd (register toy_hash accept "salt"
                           (register_form "bob@x.com") as_anonymous))
           = Some (User.id new_user))
  /\ users (db (snd (register toy_hash accept "pepper"
                       (register_form "bob@x.com")
                       {| db := db (snd (register toy_hash accept "salt"
                                           (register_form "bob@x.com")
                                           as_anonymous));
                          session := Some 2; flashes := [] |})))
     = users (db (snd (register toy_hash accept "salt"
                         (register_form "bob@x.com") as_anonymous))).
Proof.
  destruct (register_never_duplicates toy_hash accept "salt"
              (register_form "bob@x.com") as_anonymous eq_refl) as [_ Hnew].
  destruct (Hnew eq_refl)
    as [(new_user & Hr & Hu & He & _ & Hp & Hs & _) Hagain].
  split; [reflexivity|]. split; [reflexivity|]. split.
  - exists new_user. repeat split; assumption.
  - exact (proj2 (Hagain "pepper" (register_form "bob@x.com") (Some 2) []
                    eq_refl eq_refl)).
Defined.

Lemma login_outcomes_witness :
  validate_on_submit accept (login_form "a@x.com" "pw") = true
  /\ login toy_check accept (login_form "nobody@x.com" "pw") as_anonymous
     = (redirect url_login, flash email_does_not_exist as_anonymous)
  /\ login toy_check accept (login_form "a@x.com" "wrong") as_anonymous
     = (redirect url_login, flash password_incorrect as_anonymous)
  /\ login toy_check accept (login_form "a@x.com" "pw") as_anonymous
     = (redirect url_get_all_posts, login_user sample_alice as_anonymous)
  /\ session (snd (login toy_check accept (login_form "a@x.com" "pw")
                     as_anonymous)) = Some 2.
Proof.
  split; [reflexivity|].
  destruct (login_outcomes toy_check accept (login_form "nobody@x.com" "pw")
              as_anonymous eq_refl) as (Hunknown & _).
  destruct (login_outcomes toy_check accept (login_form "a@x.com" "wrong")
              as_anonymous eq_refl) as (_ & Hwrong & _).
  destruct (login_outcomes toy_check accept (login_form "a@x.com" "pw")
              as_anonymous eq_refl) as (_ & _ & Hright & _).
  split; [exact (proj1 (Hunknown eq_refl))|].
  split; [exact (proj1 (Hwrong sample_alice eq_refl eq_refl))|].
  destruct (Hright sample_alice eq_refl eq_refl) as (Hlogin & Hsession & _).
  split; [exact Hlogin | exact Hsession].
Defined.

Lemma show_post_comment_submission_witness :
  get_post (db as_alice) 2 = Some sample_post2
  /\ validate_on_submit accept comment_form = true
  /\ show_post accept 2 comment_form as_anonymous
     = (redirect url_login, flash login_to_comment as_anonymous)
  /\ exists c,
       comments (db (snd (show_post accept 2 comment_form as_alice)))
       = [sample_comment; c]
       /\ Comment.text c = "me too"
       /\ Comment.author_id c = 2
       /\ Comment.post_id c = Some 2.
Proof.
  split; [reflexivity|]. split; [reflexivity|].
  destruct (show_post_comment_submission accept 2 comment_form as_anonymous
              sample_post2 eq_refl eq_refl) as [Hanon _].
  destruct (show_post_comment_submission accept 2 comment_form as_alice
              sample_post2 eq_refl eq_refl) as [_ Huser].
  split; [exact (proj1 (Hanon eq_refl))|].
  destruct (Huser sample_alice eq_refl) as (c & Hc & Ht & Ha & Hp & _).
  exists c. repeat split; assumption.
Defined.

Lemma admin_messages_newest_first_witness :
  current_user as_admin = Some (LoggedIn sample_admin)
  /\ User.id sample_admin = 1
  /\ admin_messages as_admin
     = (render_template "admin_messages.html"
          (messages_args [sample_message2; sample_message1]), as_admin)
  /\ exists listed,
       admin_messages as_admin
       = (render_template "admin_messages.html" (messages_args listed), as_admin)
       /\ Permutation listed [sample_message1; sample_message2]
       /\ forall (i : nat) (a b : Message.t),
            nth_error listed i = Some a -> nth_error listed (S i) = Some b ->
            datetime_geb (Message.date a) (Message.date b) = true.
Proof.
  split; [reflexivity|]. split; [reflexivity|]. split; [reflexivity|].
  exact (admin_messages_newest_first as_admin sample_admin eq_refl eq_refl).
Defined.

Lemma delete_post_removes_post_witness :
  delete_post false 2 as_admin
  = (redirect url_get_all_posts, snd (delete_post false 2 as_admin))
  /\ get_all_posts (snd (delete_post false 2 as_admin))
     = (render_template "index.html" (all_posts [sample_post1]),
        snd (delete_post false 2 as_admin))
  /\ (exists post, get_post (db as_admin) 2 = Some post)
  /\ (exists listed,
        get_all_posts (snd (delete_post false 2 as_admin))
        = (render_template "index.html" (all_posts listed),
           snd (delete_post false 2 as_admin))
        /\ (forall p, In p listed -> BlogPost.id p <> 2)
        /\ (forall p, In p (blog_posts (db as_admin)) -> BlogPost.id p <> 2 ->
                      In p listed))
  /\ (forall req,
        show_post accept 2 req (snd (delete_post false 2 as_admin))
        = (abort 404, snd (delete_post false 2 as_admin))).
Proof.
  split; [reflexivity|]. split; [reflexivity|].
  exact (delete_post_removes_post accept false 2 as_admin
           (snd (delete_post false 2 as_admin)) eq_refl).
Defined.

Lemma delete_post_keeps_comments_witness :
  (delete_post false 1 as_admin = (InternalServerError, as_admin)
   /\ In sample_comment (comments (db as_admin))
   /\ Comment.post_id sample_comment = Some 1
   /\ exists c', In c' (comments (db as_admin))
                 /\ Comment.id c' = 1
                 /\ Comment.text c' = "nice"
                 /\ Comment.author_id c' = 2)
  /\
  (fst (delete_post true 1 as_admin) = redirect url_get_all_posts
   /\ get_post (db (snd (delete_post true 1 as_admin))) 1 = None
   /\ exists c', In c' (comments (db (snd (delete_post true 1 as_admin))))
                 /\ Comment.id c' = 1
                 /\ Comment.text c' = "nice"
                 /\ Comment.author_id c' = 2).
Proof.
  split.
  - split; [reflexivity|]. split; [left; reflexivity|]. split; [reflexivity|].
    exact (proj2 (delete_post_keeps_comments false 1 as_admin
                    InternalServerError as_admin eq_refl)
             sample_comment (or_introl eq_refl) eq_refl).
  - split; [reflexivity|]. split; [reflexivity|].
    exact (proj2 (delete_post_keeps_comments true 1 as_admin
                    (redirect url_get_all_posts)
                    (snd (delete_post true 1 as_admin)) eq_refl)
             sample_comment (or_introl eq_refl) eq_refl).
Defined.

Lemma sample_store_reachable :
  reachable toy_hash toy_check accept accept accept accept false sample_store.
Proof.
  pose proof (reachable_create_all toy_hash toy_check accept accept accept
                accept false) as H.
  apply (reachable_request _ _ _ _ _ _ _ _ None []
           (route_register "salt"
              (mk_request POST (RegisterForm.mk "admin@x.com" "secret" "Admin"))))
    in H.
  apply (reachable_request _ _ _ _ _ _ _ _ None []
           (route_register "salt"
              (mk_request POST (RegisterForm.mk "a@x.com" "pw" "Alice"))))
    in H.
  apply (reachable_request _ _ _ _ _ _ _ _ (Some 1) []
           (route_add_new_post new_year
              (mk_request POST
                 (CreatePostForm.mk "T1" "first" "one.png" "body one"
                    (Some "http://old.example")))))
    in H.
  apply (reachable_request _ _ _ _ _ _ _ _ (Some 1) []
           (route_add_new_post new_year
              (mk_request POST
                 (CreatePostForm.mk "T2" "second" "two.png" "body two" None))))
    in H.
  apply (reachable_request _ _ _ _ _ _ _ _ (Some 2) []
           (route_show_post 1 (mk_request POST (CommentForm.mk "nice"))))
    in H.
  apply (reachable_request _ _ _ _ _ _ _ _ None []
           (route_contact new_year
              (mk_request POST
                 (ContactForm.mk (Some "Bob") (Some "bob@x.com") None
                    (Some "hello")))))
    in H.
  apply (reachable_request _ _ _ _ _ _ _ _ None []
           (route_contact spring_day
              (mk_request POST
                 (ContactForm.mk (Some "Carol") (Some "carol@x.com")
                    (Some "555") (Some "hi again")))))
    in H.
  exact H.
Defined.

Lemma titles_stay_unique_witness :
  reachable toy_hash toy_check accept accept accept accept false sample_store
  /\ NoDup (map BlogPost.title (blog_posts sample_store))
  /\ current_user as_admin = Some (LoggedIn sample_admin)
  /\ In sample_post1 (blog_posts (db as_admin))
  /\ add_new_post accept spring_day (post_form "T1" None) as_admin
     = (InternalServerError, as_admin).
Proof.
  destruct (titles_stay_unique toy_hash toy_check accept accept accept accept
              false) as [Hunique Hconflict].
  split; [exact sample_store_reachable|].
  split; [exact (Hunique sample_store sample_store_reachable)|].
  split; [reflexivity|]. split; [left; reflexivity|].
  exact (Hconflict spring_day (post_form "T1" None) as_admin sample_admin
           sample_post1 eq_refl eq_refl eq_refl (or_introl eq_refl) eq_refl).
Defined.

(** C5, the counterexample. The administrator submits a validated new-post
    form with the title of a stored post: the request ends in the server
    error, and nothing tells the user of the conflict (no redirect, no
    flashed message). *)
Lemma add_new_post_duplicate_title_crashes :
  current_user as_admin = Some (LoggedIn sample_admin)
  /\ validate_on_submit accept (post_form "T1" None) = true
  /\ BlogPost.title sample_post1 = CreatePostForm.title (form (post_form "T1" None))
  /\ add_new_post accept spring_day (post_form "T1" None) as_admin
     = (InternalServerError, as_admin)
  /\ ~ surfaced_as_conflict as_admin
         (add_new_post accept spring_day (post_form "T1" None) as_admin).
Proof.
  repeat split.
  intros (target & category & message & Hredirect & _). discriminate Hredirect.
Qed.

Lemma edit_post_rewrites_witness :
  edit_post accept 1 (post_form "T9" (Some "http://new.example")) as_admin
  = (redirect (url_show_post 1),
     snd (edit_post accept 1 (post_form "T9" (Some "http://new.example"))
            as_admin))
  /\ exists post editor edited,
       get_post (db as_admin) 1 = Some post
       /\ current_user as_admin = Some (LoggedIn editor)
       /\ url_show_post 1 = url_show_post 1
       /\ get_post
            (db (snd (edit_post accept 1
                        (post_form "T9" (Some "http://new.example")) as_admin)))
            1 = Some edited
       /\ BlogPost.title edited = "T9"
       /\ BlogPost.subtitle edited = "a subtitle"
       /\ BlogPost.body edited = "a body"
       /\ BlogPost.img_url edited = "new.png"
       /\ BlogPost.author_id edited = User.id editor
       /\ BlogPost.id edited = 1
       /\ BlogPost.date edited = BlogPost.date post.
Proof.
  split; [reflexivity|].
  exact (edit_post_rewrites accept 1
           (post_form "T9" (Some "http://new.example")) as_admin
           (url_show_post 1) _ eq_refl).
Defined.

(** C9, the counterexample. The administrator's validated edit of post 1
    succeeds, and the stored post is not the submitted one in all fields: it
    keeps the project URL and the date it had, whatever the form carries. *)
Lemma edit_post_keeps_project_url_and_date :
  fst (edit_post accept 1 (post_form "T9" (Some "http://new.example")) as_admin)
  = redirect (url_show_post 1)
  /\ get_post
       (db (snd (edit_post accept 1
                   (post_form "T9" (Some "http://new.example")) as_admin))) 1
     = Some (BlogPost.mk 1 1 "T9" "a subtitle" "January 01, 2020" "a body"
               "new.png" (Some "http://old.example"))
  /\ ~ all_fields_rewritten
         (form (post_form "T9" (Some "http://new.example"))) sample_admin
         (BlogPost.mk 1 1 "T9" "a subtitle" "January 01, 2020" "a body"
            "new.png" (Some "http://old.example")).
Proof.
  repeat split.
  intros (_ & _ & _ & _ & Hurl & _). discriminate Hurl.
Qed.

(** ** Examples for the further properties *)

Lemma admin_routes_forbidden_witness :
  (current_user as_anonymous = Some AnonymousUser
   /\ add_new_post accept spring_day (post_form "T9" None) as_anonymous
      = (abort 403, as_anonymous)
   /\ delete_post false 1 as_anonymous = (abort 403, as_anonymous)
   /\ admin_messages as_anonymous = (abort 403, as_anonymous))
  /\
  (current_user as_alice = Some (LoggedIn sample_alice)
   /\ add_new_post accept spring_day (post_form "T9" None) as_alice
      = (abort 403, as_alice)
   /\ delete_post false 1 as_alice = (abort 403, as_alice)
   /\ admin_messages as_alice = (abort 403, as_alice)).
Proof.
  split; (split; [reflexivity|]).
  - apply (admin_routes_forbidden accept false as_anonymous AnonymousUser);
      [reflexivity | intros user E; discriminate E].
  - apply (admin_routes_forbidden accept false as_alice (LoggedIn sample_alice));
      [reflexivity | intros user E; injection E as <-; discriminate].
Defined.

Lemma stale_session_not_found_witness :
  session as_stranger = Some 99
  /\ get_user (db as_stranger) 99 = None
  /\ add_new_post accept spring_day (post_form "T9" None) as_stranger
     = (abort 404, as_stranger)
  /\ delete_post false 1 as_stranger = (abort 404, as_stranger)
  /\ admin_messages as_stranger = (abort 404, as_stranger)
  /\ show_post accept 1 comment_form as_stranger = (abort 404, as_stranger).
Proof.
  split; [reflexivity|]. split; [reflexivity|].
  destruct (stale_session_not_found accept accept false as_stranger 99
              spring_day (post_form "T9" None) 1 comment_form
              eq_refl eq_refl) as (Hadd & Hdel & Hmsg & Hshow).
  split; [exact Hadd|]. split; [exact Hdel|]. split; [exact Hmsg|].
  exact (Hshow sample_post1 eq_refl eq_refl).
Defined.

Lemma register_then_login_witness :
  validate_on_submit accept (register_form "bob@x.com") = true
  /\ select_user_by_email (db as_anonymous) "bob@x.com" = None
  /\ validate_on_submit accept (login_form "bob@x.com" "pw") = true
  /\ exists new_user,
       users (db (snd (register toy_hash accept "salt"
                         (register_form "bob@x.com") as_anonymous)))
       = [sample_admin; sample_alice; new_user]
       /\ User.password new_user = "toy$pw"
       /\ login toy_check accept (login_form "bob@x.com" "pw")
            {| db := db (snd (register toy_hash accept "salt"
                                (register_form "bob@x.com") as_anonymous));
               session := None; flashes := [] |}
          = (redirect url_get_all_posts,
             login_user new_user
               {| db := db (snd (register toy_hash accept "salt"
                                   (register_form "bob@x.com") as_anonymous));
                  session := None; flashes := [] |}).
Proof.
  split; [reflexivity|]. split; [reflexivity|]. split; [reflexivity|].
  destruct (register_then_login toy_hash toy_check accept accept "salt"
              (register_form "bob@x.com") as_anonymous
              (login_form "bob@x.com" "pw") None [] eq_refl eq_refl eq_refl
              eq_refl) as (new_user & Husers & Hpw & Hlogin).
  exists new_user. split; [exact Husers|]. split; [exact Hpw|].
  cbv zeta in Hlogin. rewrite Hpw in Hlogin. exact Hlogin.
Defined.

Lemma first_registered_user_is_admin_witness :
  validate_on_submit accept (register_form "bob@x.com") = true
  /\ users (db fresh_blog) = []
  /\ session (snd (register toy_hash accept "salt" (register_form "bob@x.com")
                     fresh_blog)) = Some 1
  /\ fst (admin_messages
            (snd (register toy_hash accept "salt" (register_form "bob@x.com")
                    fresh_blog)))
     = render_template "admin_messages.html" (messages_args []).
Proof.
  split; [reflexivity|]. split; [reflexivity|].
  destruct (first_registered_user_is_admin toy_hash accept "salt"
              (register_form "bob@x.com") fresh_blog eq_refl eq_refl)
    as (_ & Hsession & Hgate).
  split; [exact Hsession|].
  unfold admin_messages. rewrite Hgate. reflexivity.
Defined.

Lemma later_registered_user_is_not_admin_witness :
  validate_on_submit accept (register_form "bob@x.com") = true
  /\ select_user_by_email (db as_anonymous) "bob@x.com" = None
  /\ In sample_admin (users (db as_anonymous))
  /\ 1 <= User.id sample_admin
  /\ admin_messages
       (snd (register toy_hash accept "salt" (register_form "bob@x.com")
               as_anonymous))
     = (abort 403,
        snd (register toy_hash accept "salt" (register_form "bob@x.com")
               as_anonymous)).
Proof.
  split; [reflexivity|]. split; [reflexivity|].
  split; [left; reflexivity|]. split; [discriminate|].
  destruct (later_registered_user_is_not_admin toy_hash accept "salt"
              (register_form "bob@x.com") as_anonymous sample_admin
              eq_refl eq_refl (or_introl eq_refl))
    as (new_user & _ & _ & Hgate); [discriminate|].
  unfold admin_messages. apply Hgate.
Defined.


Lemma contact_message_is_listed_witness :
  current_user
    {| db := db (snd (contact spring_day
                        (contact_form (Some "Dave") (Some "hey")) as_anonymous));
       session := Some 1; flashes := [] |} = Some (LoggedIn sample_admin)
  /\ exists listed m,
       admin_messages
         {| db := db (snd (contact spring_day
                             (contact_form (Some "Dave") (Some "hey"))
                             as_anonymous));
            session := Some 1; flashes := [] |}
       = (render_template "admin_messages.html" (messages_args listed),
          {| db := db (snd (contact spring_day
                              (contact_form (Some "Dave") (Some "hey"))
                              as_anonymous));
             session := Some 1; flashes := [] |})
       /\ In m listed
       /\ Message.name m = "Dave"
       /\ Message.email m = "dave@x.com"
       /\ Message.message m = "hey"
       /\ Message.date m = spring_day
       /\ (forall earlier,
             In earlier (messages (db as_anonymous)) -> In earlier listed).
Proof.
  split; [reflexivity|].
  exact (contact_message_is_listed spring_day
           (contact_form (Some "Dave") (Some "hey")) as_anonymous
           "Dave" "dave@x.com" "hey"
           {| db := db (snd (contact spring_day
                               (contact_form (Some "Dave") (Some "hey"))
                               as_anonymous));
              session := Some 1; flashes := [] |}
           sample_admin
           eq_refl eq_refl eq_refl eq_refl eq_refl eq_refl eq_refl).
Defined.

Lemma add_new_post_creates_witness :
  current_user as_admin = Some (LoggedIn sample_admin)
  /\ validate_on_submit accept (post_form "T3" None) = true
  /\ exists new_post,
       fst (add_new_post accept spring_day (post_form "T3" None) as_admin)
       = redirect url_get_all_posts
       /\ blog_posts (db (snd (add_new_post accept spring_day
                                 (post_form "T3" None) as_admin)))
          = [sample_post1; sample_post2; new_post]
       /\ new_post = BlogPost.mk 3 1 "T3" "a subtitle" "March 05, 2020"
                       "a body" "new.png" None
       /\ get_post (db (snd (add_new_post accept spring_day
                               (post_form "T3" None) as_admin)))
            (BlogPost.id new_post) = Some new_post.
Proof.
  split; [reflexivity|]. split; [reflexivity|].
  destruct (add_new_post_creates accept spring_day (post_form "T3" None)
              as_admin sample_admin eq_refl eq_refl eq_refl)
    as (new_post & Hr & Hposts & Hnew & Hget & _).
  - intros p [<-|[<-|[]]]; discriminate.
  - exists new_post. repeat split; assumption.
Defined.

Lemma edit_post_duplicate_title_witness :
  get_post (db as_admin) 1 = Some sample_post1
  /\ In sample_post2 (blog_posts (db as_admin))
  /\ BlogPost.id sample_post2 <> 1
  /\ BlogPost.title sample_post2 = "T2"
  /\ edit_post accept 1 (post_form "T2" None) as_admin
     = (InternalServerError, as_admin).
Proof.
  split; [reflexivity|]. split; [right; left; reflexivity|].
  split; [discriminate|]. split; [reflexivity|].
  apply (edit_post_duplicate_title accept 1 (post_form "T2" None) as_admin
           sample_post1 sample_post2 sample_admin);
    try reflexivity; [right; left; reflexivity | discriminate].
Defined.

Lemma edit_post_frame_witness :
  edit_post accept 1 (post_form "T9" None) as_alice
  = (redirect (url_show_post 1),
     snd (edit_post accept 1 (post_form "T9" None) as_alice))
  /\ comments (db (snd (edit_post accept 1 (post_form "T9" None) as_alice)))
     = [sample_comment]
  /\ users (db (snd (edit_post accept 1 (post_form "T9" None) as_alice)))
     = [sample_admin; sample_alice]
  /\ nth_error
       (blog_posts (db (snd (edit_post accept 1 (post_form "T9" None) as_alice))))
       1 = Some sample_post2.
Proof.
  split; [reflexivity|].
  destruct (edit_post_frame accept 1 (post_form "T9" None) as_alice
              (url_show_post 1)
              (snd (edit_post accept 1 (post_form "T9" None) as_alice)) eq_refl)
    as (Hu & Hc & _ & _ & _ & _ & Hrows).
  split; [exact Hc|]. split; [exact Hu|].
  apply (Hrows 1%nat sample_post2); [reflexivity | discriminate].
Defined.

Lemma unsubmitted_request_keeps_world_witness :
  submitted accept accept accept accept
    (route_edit_post 1 (mk_request GET (form (post_form "T9" None)))) = false
  /\ snd (app toy_hash toy_check accept accept accept accept false
            (route_edit_post 1 (mk_request GET (form (post_form "T9" None))))
            as_alice) = as_alice
  /\ submitted (fun _ => false) accept accept accept
       (route_register "salt" (register_form "bob@x.com")) = false
  /\ snd (app toy_hash toy_check (fun _ => false) accept accept accept false
            (route_register "salt" (register_form "bob@x.com")) as_anonymous)
     = as_anonymous.
Proof.
  split; [reflexivity|].
  split; [exact (unsubmitted_request_keeps_world toy_hash toy_check accept
                   accept accept accept false
                   (route_edit_post 1
                      (mk_request GET (form (post_form "T9" None))))
                   as_alice eq_refl)|].
  split; [reflexivity|].
  exact (unsubmitted_request_keeps_world toy_hash toy_check (fun _ => false)
           accept accept accept false
           (route_register "salt" (register_form "bob@x.com"))
           as_anonymous eq_refl).
Defined.

Lemma users_are_only_added_witness :
  get_user (db as_anonymous) 1 = Some sample_admin
  /\ select_user_by_email (db as_anonymous) "a@x.com" = Some sample_alice
  /\ get_user
       (db (snd (app toy_hash toy_check accept accept accept accept false
                   (route_register "salt" (register_form "bob@x.com"))
                   as_anonymous))) 1 = Some sample_admin
  /\ select_user_by_email
       (db (snd (app toy_hash toy_check accept accept accept accept false
                   (route_delete_post 2) as_admin))) "a@x.com"
     = Some sample_alice.
Proof.
  split; [reflexivity|]. split; [reflexivity|]. split.
  - exact (proj1 (proj2 (users_are_only_added toy_hash toy_check accept accept
                           accept accept false
                           (route_register "salt" (register_form "bob@x.com"))
                           as_anonymous))
             1 sample_admin eq_refl).
  - exact (proj2 (proj2 (users_are_only_added toy_hash toy_check accept accept
                           accept accept false (route_delete_post 2) as_admin))
             "a@x.com" sample_alice eq_refl).
Defined.

Lemma delete_post_without_comments_witness :
  current_user as_admin = Some (LoggedIn sample_admin)
  /\ get_post (db as_admin) 2 = Some sample_post2
  /\ fst (delete_post false 2 as_admin) = redirect url_get_all_posts
  /\ blog_posts (db (snd (delete_post false 2 as_admin))) = [sample_post1]
  /\ comments (db (snd (delete_post false 2 as_admin))) = [sample_comment].
Proof.
  split; [reflexivity|]. split; [reflexivity|].
  destruct (delete_post_without_comments false 2 as_admin sample_admin
              sample_post2 eq_refl eq_refl eq_refl)
    as (Hr & Hposts & Hcomments & _).
  - intros c [<-|[]]. discriminate.
  - split; [exact Hr|]. split; [exact Hposts | exact Hcomments].
Defined.

Lemma delete_post_with_comments_witness :
  In sample_comment (comments (db as_admin))
  /\ Comment.post_id sample_comment = Some 1
  /\ delete_post false 1 as_admin = (InternalServerError, as_admin)
  /\ fst (delete_post true 1 as_admin) = redirect url_get_all_posts
  /\ get_post (db (snd (delete_post true 1 as_admin))) 1 = None
  /\ In (Comment.mk 1 "nice" 2 None)
       (comments (db (snd (delete_post true 1 as_admin)))).
Proof.
  split; [left; reflexivity|]. split; [reflexivity|].
  pose proof (delete_post_with_comments false 1 as_admin sample_admin
                sample_post1 sample_comment eq_refl eq_refl eq_refl
                (or_introl eq_refl) eq_refl) as Hrefused.
  destruct (delete_post_with_comments true 1 as_admin sample_admin
              sample_post1 sample_comment eq_refl eq_refl eq_refl
              (or_introl eq_refl) eq_refl) as (Hr & Hgone & _ & Hkept).
  split; [exact Hrefused|]. split; [exact Hr|].
  split; [exact Hgone | exact Hkept].
Defined.

Lemma reachable_keys_unique_witness :
  reachable toy_hash toy_check accept accept accept accept false sample_store
  /\ NoDup (map User.id (users sample_store))
  /\ NoDup (map User.email (users sample_store))
  /\ NoDup (map BlogPost.id (blog_posts sample_store))
  /\ NoDup (map Comment.id (comments sample_store))
  /\ NoDup (map Message.id (messages sample_store))
  /\ (forall u, In u (users sample_store) -> 1 <= User.id u).
Proof.
  split; [exact sample_store_reachable|].
  exact (reachable_keys_unique toy_hash toy_check accept accept accept accept
           false sample_store sample_store_reachable).
Defined.


Lemma reachable_references_ok_witness :
  reachable toy_hash toy_check accept accept accept accept false sample_store
  /\ In sample_comment (comments sample_store)
  /\ (exists author,
        In author (users sample_store)
        /\ User.id author = Comment.author_id sample_comment)
  /\ (exists post,
        In post (blog_posts sample_store) /\ BlogPost.id post = 1).
Proof.
  split; [exact sample_store_reachable|]. split; [left; reflexivity|].
  destruct (reachable_references_ok toy_hash toy_check accept accept accept
              accept false sample_store sample_store_reachable)
    as (_ & Hauthors & Hparents).
  split.
  - exact (Hauthors sample_comment (or_introl eq_refl)).
  - exact (Hparents sample_comment 1 (or_introl eq_refl) eq_refl).
Defined.


Lemma login_then_current_user_witness :
  NoDup (map User.id (users (db as_anonymous)))
  /\ current_user
       (snd (login toy_check accept (login_form "a@x.com" "pw") as_anonymous))
     = Some (LoggedIn sample_alice)
  /\ admin_messages
       (snd (login toy_check accept (login_form "a@x.com" "pw") as_anonymous))
     = (abort 403,
        snd (login toy_check accept (login_form "a@x.com" "pw") as_anonymous))
  /\ fst (admin_messages
            (snd (login toy_check accept (login_form "admin@x.com" "secret")
                    as_anonymous)))
     = render_template "admin_messages.html"
         (messages_args [sample_message2; sample_message1]).
Proof.
  assert (Hnd : NoDup (map User.id (users (db as_anonymous)))).
  { simpl. constructor.
    - intros [E|[]]. discriminate E.
    - constructor; [intros [] | constructor]. }
  split; [exact Hnd|].
  destruct (login_then_current_user toy_check accept
              (login_form "a@x.com" "pw") as_anonymous sample_alice Hnd
              eq_refl eq_refl eq_refl) as [Hcur Hgate].
  destruct (login_then_current_user toy_check accept
              (login_form "admin@x.com" "secret") as_anonymous sample_admin Hnd
              eq_refl eq_refl eq_refl) as [_ Hadmin].
  split; [exact Hcur|]. split.
  - unfold admin_messages. rewrite Hgate. reflexivity.
  - unfold admin_messages. rewrite Hadmin. reflexivity.
Defined.

Lemma new_post_has_no_comments_witness :
  reachable toy_hash toy_check accept accept accept accept false (db as_admin)
  /\ exists new_post,
       blog_posts (db (snd (add_new_post accept spring_day
                              (post_form "T3" None) as_admin)))
       = [sample_post1; sample_post2; new_post]
       /\ post_comments (db (snd (add_new_post accept spring_day
                                    (post_form "T3" None) as_admin)))
            (BlogPost.id new_post) = []
       /\ forall comment : Request CommentForm.t,
            validate_on_submit accept comment = false ->
            fst (show_post accept (BlogPost.id new_post) comment
                   (snd (add_new_post accept spring_day (post_form "T3" None)
                           as_admin)))
            = render_template "post.html" (post_args new_post []).
Proof.
  split; [exact sample_store_reachable|].
  refine (new_post_has_no_comments toy_hash toy_check accept accept accept
            accept false spring_day (post_form "T3" None) as_admin sample_admin
            sample_store_reachable eq_refl eq_refl eq_refl _).
  intros p [<-|[<-|[]]]; discriminate.
Defined.
